(** * Authorization and approval workflow of Cloud-Craver

    A shallow embedding of [src/auth/rbac.py], [src/workflows/approval.py]
    and of the part of [src/audit/logger.py] the workflow calls, followed by
    the properties of the RBAC engine and of the approval ledger.

    Python sets are [gset string]; Python dicts, which iterate in insertion
    order, are association lists with unique keys ([pydict]); the objects
    that the source shares by reference (the role tables) live in a store
    addressed by location; everything a method can touch outside its own
    object (files, clock, uuid generator, audit trail, console, diagnostic
    log) is the [World]. *)

From stdpp Require Import gmap strings list pretty.
From Stdlib Require Import ZArith.

Open Scope string_scope.

(** ** Exceptions and outcomes *)

Inductive exn_class :=
  | ValueError | PermissionError | KeyError | TypeError | AttributeError
  | FileNotFoundError | JSONDecodeError | UnicodeDecodeError.

(** An exception object: its class and [str(e)]. *)
Record exn := Exn { exn_cls : exn_class; exn_msg : string }.

Global Instance exn_class_eq_dec : EqDecision exn_class.
Proof. solve_decision. Defined.

(** Outcome of running Python code. [Unmodelled] marks an execution the
    embedding does not follow: one that stores, in an attribute the source
    annotates as [str], a value of another type read from a foreign file
    (Python goes on with it, the typed records below cannot hold it), or a
    call from outside that the public interface does not offer. Nothing is
    stated about such an execution. *)
Inductive result (A : Type) :=
  | Ret (a : A)
  | Raise (e : exn)
  | Unmodelled.
Arguments Ret {A} a.
Arguments Raise {A} e.
Arguments Unmodelled {A}.

(** State and exception monad: the effects made before a [raise] stay. *)
Definition M (S A : Type) : Type := S -> result A * S.

Definition ret {S A} (a : A) : M S A := fun s => (Ret a, s).

Definition bind {S A B} (c : M S A) (k : A -> M S B) : M S B :=
  fun s =>
    match c s with
    | (Ret a, s') => k a s'
    | (Raise e, s') => (Raise e, s')
    | (Unmodelled, s') => (Unmodelled, s')
    end.

Definition raise {S A} (e : exn) : M S A := fun s => (Raise e, s).
Definition unmodelled {S A} : M S A := fun s => (Unmodelled, s).
Definition get {S} : M S S := fun s => (Ret s, s).
Definition modify {S} (f : S -> S) : M S unit := fun s => (Ret tt, f s).

(** [try: body except classes as e: handler e]; other exceptions pass. *)
Definition try_except {S A} (body : M S A)
    (classes : list exn_class) (handler : exn -> M S A) : M S A :=
  fun s =>
    match body s with
    | (Raise e, s') =>
        if bool_decide (exn_cls e ∈ classes) then handler e s' else (Raise e, s')
    | other => other
    end.

Declare Scope py_scope.
Delimit Scope py_scope with py.
Notation "x <- c ;; k" := (bind c (fun x => k))
  (at level 100, c at next level, right associativity) : py_scope.
Notation "c ;;; k" := (bind c (fun _ => k))
  (at level 100, right associativity) : py_scope.
Open Scope py_scope.

(** [for x in xs: acc = step acc x], with effects and early exit on raise. *)
Fixpoint for_each {S A B} (step : B -> A -> M S B) (xs : list A) (acc : B) : M S B :=
  match xs with
  | [] => ret acc
  | x :: rest => acc' <- step acc x ;; for_each step rest acc'
  end.

(** ** Python dicts: insertion-ordered, unique keys *)

Definition pydict (V : Type) : Type := list (string * V).

Section PyDict.
Context {V : Type}.

Fixpoint dict_get (d : pydict V) (k : string) : option V :=
  match d with
  | [] => None
  | (k', v) :: rest => if bool_decide (k' = k) then Some v else dict_get rest k
  end.

Definition dict_contains (d : pydict V) (k : string) : bool :=
  match dict_get d k with Some _ => true | None => false end.

(** [d[k] = v]: an existing key keeps its position, a new one goes last. *)
Fixpoint dict_set (d : pydict V) (k : string) (v : V) : pydict V :=
  match d with
  | [] => [(k, v)]
  | (k', v') :: rest =>
      if bool_decide (k' = k) then (k, v) :: rest else (k', v') :: dict_set rest k v
  end.

Definition dict_keys (d : pydict V) : list string := map fst d.
Definition dict_values (d : pydict V) : list V := map snd d.
Definition dict_items (d : pydict V) : list (string * V) := d.
End PyDict.

(** ** JSON values, as [json.load] returns them *)

#[local] Set Warnings "-register-all".
Inductive json :=
  | JNull
  | JBool (b : bool)
  | JNum (n : Z)
  | JStr (s : string)
  | JList (l : list json)
  | JDict (d : list (string * json)).

(** Truth value of a JSON value, as [x or y] and [if x:] test it. *)
Definition truthy (v : json) : bool :=
  match v with
  | JNull => false
  | JBool b => b
  | JNum n => negb (n =? 0)%Z
  | JStr s => negb (bool_decide (s = ""))
  | JList l => match l with [] => false | _ => true end
  | JDict d => match d with [] => false | _ => true end
  end.

Definition type_name (v : json) : string :=
  match v with
  | JNull => "NoneType"
  | JBool _ => "bool"
  | JNum _ => "int"
  | JStr _ => "str"
  | JList _ => "list"
  | JDict _ => "dict"
  end.

(** ** Timestamps: [datetime] objects in UTC *)

Record datetime := DateTime {
  year : nat; month : nat; day : nat;
  hour : nat; minute : nat; second : nat; microsecond : nat
}.

Global Instance datetime_eq_dec : EqDecision datetime.
Proof. solve_decision. Defined.

Definition datetime_key (t : datetime) : list nat :=
  [year t; month t; day t; hour t; minute t; second t; microsecond t].

Fixpoint lex_leb (a b : list nat) : bool :=
  match a, b with
  | [], _ => true
  | _ :: _, [] => false
  | x :: a', y :: b' => (x <? y)%nat || ((x =? y)%nat && lex_leb a' b')
  end.

(** [t1 <= t2] on datetimes of the same zone. *)
Definition datetime_leb (t1 t2 : datetime) : bool :=
  lex_leb (datetime_key t1) (datetime_key t2).

Definition digit (n : nat) : string :=
  String (Ascii.ascii_of_nat (48 + n mod 10)) "".

Fixpoint zero_pad (width n : nat) : string :=
  match width with
  | 0 => ""
  | S w => zero_pad w (n / 10) ++ digit n
  end.

(** [t.isoformat(sep)]: the fraction is left out when it is zero. *)
Definition isoformat_sep (sep : string) (t : datetime) : string :=
  zero_pad 4 (year t) ++ "-" ++ zero_pad 2 (month t) ++ "-" ++ zero_pad 2 (day t)
  ++ sep
  ++ zero_pad 2 (hour t) ++ ":" ++ zero_pad 2 (minute t) ++ ":" ++ zero_pad 2 (second t)
  ++ (if (microsecond t =? 0)%nat then "" else "." ++ zero_pad 6 (microsecond t))
  ++ "+00:00".

Definition isoformat : datetime -> string := isoformat_sep "T".
Definition str_datetime : datetime -> string := isoformat_sep " ".

(** ** src/auth/rbac.py: roles and permissions *)

Record Role := mkRole { name : string; permissions : gset string }.

(** [Role.__init__]: [permissions or set()]. *)
Definition Role_init (name : string) (permissions : option (gset string)) : Role :=
  mkRole name
    (match permissions with
     | Some ps => if bool_decide (ps = ∅) then ∅ else ps
     | None => ∅
     end).

(** [Role.has_permission] *)
Definition Role_has_permission (r : Role) (permission : string) : bool :=
  bool_decide (permission ∈ permissions r).

Module Permission.
Definition CREATE_INFRA := "infrastructure:create".
Definition READ_INFRA := "infrastructure:read".
Definition UPDATE_INFRA := "infrastructure:update".
Definition DELETE_INFRA := "infrastructure:delete".
Definition APPROVE_CHANGES := "approvals:approve".
Definition REJECT_CHANGES := "approvals:reject".
Definition CREATE_POLICY := "policy:create".
Definition MANAGE_POLICY := "policy:manage".
Definition MANAGE_USERS := "users:manage".
Definition MANAGE_ROLES := "roles:manage".
Definition VIEW_AUDIT_LOGS := "system:view_audit_logs".
Definition ADMIN_ACCESS := "system:admin".
End Permission.

(** The module-level dict [DEFAULT_ROLES], as it is when the module loads. *)
Definition DEFAULT_ROLES : pydict Role :=
  [ ("Admin", Role_init "Admin"
       (Some {[ Permission.ADMIN_ACCESS; Permission.MANAGE_USERS;
                Permission.MANAGE_ROLES; Permission.VIEW_AUDIT_LOGS ]}));
    ("Developer", Role_init "Developer"
       (Some {[ Permission.CREATE_INFRA; Permission.READ_INFRA;
                Permission.UPDATE_INFRA ]}));
    ("Auditor", Role_init "Auditor"
       (Some {[ Permission.VIEW_AUDIT_LOGS; Permission.READ_INFRA ]}));
    ("Approver", Role_init "Approver"
       (Some {[ Permission.APPROVE_CHANGES; Permission.REJECT_CHANGES ]})) ].

(** ** The world outside an object *)

(** A role table is a dict object that several engines may hold: engines
    keep its location, the store keeps its contents. *)
Definition loc := nat.

(** Where the module keeps [DEFAULT_ROLES]. *)
Definition DEFAULT_ROLES_loc : loc := 0.

(** A file that exists holds JSON, or text that is not JSON, on which
    [json.load] raises [JSONDecodeError] with some message, or bytes that
    are not text, on which reading raises [UnicodeDecodeError]. *)
Inductive file_content :=
  | Json (v : json)
  | Garbled (err : string)
  | Undecodable (err : string).

Inductive log_level := INFO | WARNING | ERROR.

Inductive console_item :=
  | Line (text : string)
  | TableOut (title : string) (columns : list string) (rows : list (list string)).

Record World := mkWorld {
  role_tables : gmap loc (pydict Role);
  files : gmap string file_content;
  (** readings [datetime.now] will return, and how many were taken *)
  clock_tape : nat -> datetime;
  clock_pos : nat;
  (** values [str(uuid4())] will return, and how many were taken *)
  uuid_tape : nat -> string;
  uuid_pos : nat;
  (** entries written to the audit log, oldest first *)
  audit_trail : list json;
  (** what [console.print] showed, oldest first *)
  console : list console_item;
  (** records handed to the [logging] module, oldest first *)
  log : list (log_level * string)
}.

Definition set_role_tables (f : gmap loc (pydict Role) -> gmap loc (pydict Role)) (w : World) : World :=
  mkWorld (f (role_tables w)) (files w) (clock_tape w) (clock_pos w)
          (uuid_tape w) (uuid_pos w) (audit_trail w) (console w) (log w).
Definition set_files (f : gmap string file_content -> gmap string file_content) (w : World) : World :=
  mkWorld (role_tables w) (f (files w)) (clock_tape w) (clock_pos w)
          (uuid_tape w) (uuid_pos w) (audit_trail w) (console w) (log w).
Definition set_clock_pos (f : nat -> nat) (w : World) : World :=
  mkWorld (role_tables w) (files w) (clock_tape w) (f (clock_pos w))
          (uuid_tape w) (uuid_pos w) (audit_trail w) (console w) (log w).
Definition set_uuid_pos (f : nat -> nat) (w : World) : World :=
  mkWorld (role_tables w) (files w) (clock_tape w) (clock_pos w)
          (uuid_tape w) (f (uuid_pos w)) (audit_trail w) (console w) (log w).
Definition set_audit_trail (f : list json -> list json) (w : World) : World :=
  mkWorld (role_tables w) (files w) (clock_tape w) (clock_pos w)
          (uuid_tape w) (uuid_pos w) (f (audit_trail w)) (console w) (log w).
Definition set_console (f : list console_item -> list console_item) (w : World) : World :=
  mkWorld (role_tables w) (files w) (clock_tape w) (clock_pos w)
          (uuid_tape w) (uuid_pos w) (audit_trail w) (f (console w)) (log w).
Definition set_log (f : list (log_level * string) -> list (log_level * string)) (w : World) : World :=
  mkWorld (role_tables w) (files w) (clock_tape w) (clock_pos w)
          (uuid_tape w) (uuid_pos w) (audit_trail w) (console w) (f (log w)).

(** A method runs on its object and the world. *)
Definition Method (O A : Type) : Type := M (O * World) A.

Section WorldOps.
Context {O : Type}.

Definition get_self : Method O O := fun s => (Ret (fst s), s).
Definition set_self (f : O -> O) : Method O unit := modify (fun s => (f (fst s), snd s)).
Definition get_world : Method O World := fun s => (Ret (snd s), s).
Definition set_world (f : World -> World) : Method O unit := modify (fun s => (fst s, f (snd s))).

(** [datetime.now(timezone.utc)] *)
Definition datetime_now : Method O datetime :=
  w <- get_world ;;
  set_world (set_clock_pos S) ;;;
  ret (clock_tape w (clock_pos w)).

(** [str(uuid4())] *)
Definition uuid4 : Method O string :=
  w <- get_world ;;
  set_world (set_uuid_pos S) ;;;
  ret (uuid_tape w (uuid_pos w)).

(** [with open(path, "r") as f: json.load(f)] *)
Definition json_load (path : string) : Method O json :=
  w <- get_world ;;
  match files w !! path with
  | None => raise (Exn FileNotFoundError ("[Errno 2] No such file or directory: '" ++ path ++ "'"))
  | Some (Garbled err) => raise (Exn JSONDecodeError err)
  | Some (Undecodable err) => raise (Exn UnicodeDecodeError err)
  | Some (Json v) => ret v
  end.

(** [with open(path, "w") as f: json.dump(v, f, indent=2)]. The store takes
    every write, and every value of type [json] can be serialized. *)
Definition json_dump (v : json) (path : string) : Method O unit :=
  set_world (set_files (insert path (Json v))).

(** [console.print(item)]. The item is kept as it was passed; how rich
    renders it, and the texts whose markup rich refuses, are not followed. *)
Definition console_print (item : console_item) : Method O unit :=
  set_world (set_console (fun c => (c ++ [item])%list)).

Definition logger_info (msg : string) : Method O unit :=
  set_world (set_log (fun l => (l ++ [(INFO, msg)])%list)).
Definition logger_warning (msg : string) : Method O unit :=
  set_world (set_log (fun l => (l ++ [(WARNING, msg)])%list)).
Definition logger_error (msg : string) : Method O unit :=
  set_world (set_log (fun l => (l ++ [(ERROR, msg)])%list)).
End WorldOps.

(** ** src/auth/rbac.py: the engine *)

Record RBACEngine := mkEngine {
  roles : loc;                          (** a reference to a role table *)
  user_roles : pydict (gset string)     (** user id to role names *)
}.

(** [RBACEngine.__init__]: [self.roles = roles or DEFAULT_ROLES]. A dict
    that is absent or empty is false, and the engine then holds the module's
    own [DEFAULT_ROLES] object, not a copy of it. *)
Definition RBACEngine_init (roles : option loc) (w : World) : RBACEngine :=
  mkEngine
    (match roles with
     | Some l =>
         match role_tables w !! l with
         | Some (_ :: _) => l
         | _ => DEFAULT_ROLES_loc
         end
     | None => DEFAULT_ROLES_loc
     end)
    [].

(** The dict [self.roles] refers to. *)
Definition roles_of (e : RBACEngine) (w : World) : pydict Role :=
  default [] (role_tables w !! roles e).

Definition set_user_roles (f : pydict (gset string) -> pydict (gset string))
    (e : RBACEngine) : RBACEngine :=
  mkEngine (roles e) (f (user_roles e)).

(** [RBACEngine.add_role] *)
Definition add_role (role : Role) : Method RBACEngine unit :=
  self <- get_self ;;
  w <- get_world ;;
  if dict_contains (roles_of self w) (name role) then
    raise (Exn ValueError ("Role '" ++ name role ++ "' already exists."))
  else
    set_world (set_role_tables
      (insert (roles self) (dict_set (roles_of self w) (name role) role))) ;;;
    logger_info ("Role '" ++ name role ++ "' added.").

(** [RBACEngine.assign_role_to_user] *)
Definition assign_role_to_user (user_id role_name : string) : Method RBACEngine unit :=
  self <- get_self ;;
  w <- get_world ;;
  if negb (dict_contains (roles_of self w) role_name) then
    raise (Exn ValueError ("Role '" ++ role_name ++ "' does not exist."))
  else
    (if negb (dict_contains (user_roles self) user_id)
     then set_self (set_user_roles (fun ur => dict_set ur user_id ∅))
     else ret tt) ;;;
    set_self (set_user_roles (fun ur =>
      dict_set ur user_id (default ∅ (dict_get ur user_id) ∪ {[ role_name ]}))) ;;;
    logger_info ("Assigned role '" ++ role_name ++ "' to user '" ++ user_id ++ "'.").

(** [RBACEngine.remove_role_from_user] *)
Definition remove_role_from_user (user_id role_name : string) : Method RBACEngine unit :=
  self <- get_self ;;
  match dict_get (user_roles self) user_id with
  | Some rs =>
      if bool_decide (role_name ∈ rs) then
        set_self (set_user_roles (fun ur => dict_set ur user_id (rs ∖ {[ role_name ]}))) ;;;
        logger_info ("Removed role '" ++ role_name ++ "' from user '" ++ user_id ++ "'.")
      else ret tt
  | None => ret tt
  end.

(** [RBACEngine.get_user_permissions]: a query, it changes nothing. *)
Definition get_user_permissions (e : RBACEngine) (w : World) (user_id : string) : gset string :=
  let user_role_names := default ∅ (dict_get (user_roles e) user_id) in
  fold_left
    (fun acc role_name =>
       match dict_get (roles_of e w) role_name with
       | Some role => acc ∪ permissions role
       | None => acc
       end)
    (elements user_role_names) ∅.

(** [RBACEngine.has_permission] *)
Definition has_permission (e : RBACEngine) (w : World) (user_id permission : string) : bool :=
  bool_decide (permission ∈ get_user_permissions e w user_id).

(** [RBACEngine.save_state] *)
Definition save_state (file_path : string) : Method RBACEngine unit :=
  self <- get_self ;;
  let state :=
    JDict [("user_roles",
            JDict (map (fun '(user_id, rs) => (user_id, JList (map JStr (elements rs))))
                       (dict_items (user_roles self))))] in
  json_dump state file_path ;;;
  logger_info ("RBAC state saved to " ++ file_path).

(** [v.get(key, dflt)]; only dicts have [get]. *)
Definition py_get {S} (v : json) (key : string) (dflt : json) : M S json :=
  match v with
  | JDict d => ret (default dflt (dict_get d key))
  | _ => raise (Exn AttributeError ("'" ++ type_name v ++ "' object has no attribute 'get'"))
  end.

(** [v.items()]; only dicts have [items]. *)
Definition py_items {S} (v : json) : M S (list (string * json)) :=
  match v with
  | JDict d => ret (dict_items d)
  | _ => raise (Exn AttributeError ("'" ++ type_name v ++ "' object has no attribute 'items'"))
  end.

Definition hashable (v : json) : bool :=
  match v with JList _ | JDict _ => false | _ => true end.

(** [set(v)], before equal elements are merged: a list gives its elements
    (all must be hashable), a string its characters, a dict its keys;
    nothing else can be iterated. *)
Definition py_set {S} (v : json) : M S (list json) :=
  match v with
  | JList l =>
      match find (fun x => negb (hashable x)) l with
      | Some x => raise (Exn TypeError ("unhashable type: '" ++ type_name x ++ "'"))
      | None => ret l
      end
  | JStr s => ret (map (fun c => JStr (String c "")) (String.list_ascii_of_string s))
  | JDict d => ret (map (fun kv => JStr (fst kv)) d)
  | _ => raise (Exn TypeError ("'" ++ type_name v ++ "' object is not iterable"))
  end.

Definition as_str (v : json) : option string :=
  match v with JStr s => Some s | _ => None end.

(** A set of role names has type [Set[str]] when every element is a string. *)
Definition as_str_set (l : list json) : option (gset string) :=
  list_to_set <$> mapM as_str l.

Definition as_user_roles (raw : pydict (list json)) : option (pydict (gset string)) :=
  mapM (fun '(user_id, l) => rs ← as_str_set l; Some (user_id, rs)) raw.

(** [RBACEngine.load_state]. The mapping is built in full before it is
    assigned to [self.user_roles]; two handlers end the call normally. *)
Definition load_state (file_path : string) : Method RBACEngine unit :=
  try_except
    (state <- json_load file_path ;;
     ur <- py_get state "user_roles" (JDict []) ;;
     items <- py_items ur ;;
     raw <- for_each
              (fun (acc : pydict (list json)) '(user_id, rs) =>
                 s <- py_set rs ;; ret (dict_set acc user_id s))
              items [] ;;
     match as_user_roles raw with
     | Some typed => set_self (set_user_roles (fun _ => typed))
     | None => unmodelled
     end ;;;
     logger_info ("RBAC state loaded from " ++ file_path))
    [FileNotFoundError; JSONDecodeError; TypeError]
    (fun e =>
       match exn_cls e with
       | FileNotFoundError =>
           logger_warning ("RBAC state file not found at " ++ file_path
                           ++ ". Starting with empty state.")
       | _ =>
           logger_error ("Failed to load RBAC state from " ++ file_path ++ ": " ++ exn_msg e)
       end).

(** ** src/audit/logger.py: the audit trail *)

Inductive AuditEvent :=
  | USER_LOGIN_SUCCESS | USER_LOGIN_FAILURE | USER_LOGOUT
  | ROLE_ASSIGNED | ROLE_REMOVED | PERMISSION_DENIED
  | INFRA_CHANGE_REQUESTED | INFRA_CHANGE_APPROVED | INFRA_CHANGE_REJECTED
  | INFRA_APPLY_SUCCESS | INFRA_APPLY_FAILURE
  | POLICY_EVALUATION
  | SYSTEM_STARTUP | SYSTEM_SHUTDOWN.

Definition AuditEvent_value (e : AuditEvent) : string :=
  match e with
  | USER_LOGIN_SUCCESS => "user.login.success"
  | USER_LOGIN_FAILURE => "user.login.failure"
  | USER_LOGOUT => "user.logout"
  | ROLE_ASSIGNED => "rbac.role.assigned"
  | ROLE_REMOVED => "rbac.role.removed"
  | PERMISSION_DENIED => "rbac.permission.denied"
  | INFRA_CHANGE_REQUESTED => "infra.change.requested"
  | INFRA_CHANGE_APPROVED => "infra.change.approved"
  | INFRA_CHANGE_REJECTED => "infra.change.rejected"
  | INFRA_APPLY_SUCCESS => "infra.apply.success"
  | INFRA_APPLY_FAILURE => "infra.apply.failure"
  | POLICY_EVALUATION => "policy.evaluation"
  | SYSTEM_STARTUP => "system.startup"
  | SYSTEM_SHUTDOWN => "system.shutdown"
  end.

Definition json_of_option_str (o : option string) : json :=
  match o with Some s => JStr s | None => JNull end.

(** [AuditLogger.log] on the global [audit_logger]: one entry, stamped with
    a clock reading of its own, appended to the trail. *)
Definition audit_logger_log {O} (event : AuditEvent) (actor_id : string)
    (target_id : option string) (details : option json) (status : string) : Method O unit :=
  now <- datetime_now ;;
  let log_entry :=
    JDict [ ("timestamp", JStr (isoformat now));
            ("event", JStr (AuditEvent_value event));
            ("actor_id", JStr actor_id);
            ("target_id", json_of_option_str target_id);
            ("status", JStr status);
            ("details", match details with
                        | Some d => if truthy d then d else JDict []
                        | None => JDict []
                        end) ] in
  set_world (set_audit_trail (fun t => (t ++ [log_entry])%list)).

(** ** src/workflows/approval.py: requests *)

Inductive ApprovalStatus := PENDING | APPROVED | REJECTED | CANCELLED.

Global Instance ApprovalStatus_eq_dec : EqDecision ApprovalStatus.
Proof. solve_decision. Defined.

Definition ApprovalStatus_value (s : ApprovalStatus) : string :=
  match s with
  | PENDING => "pending"
  | APPROVED => "approved"
  | REJECTED => "rejected"
  | CANCELLED => "cancelled"
  end.

Fixpoint py_repr (v : json) : string :=
  match v with
  | JNull => "None"
  | JBool b => if b then "True" else "False"
  | JNum n => pretty n
  | JStr s => "'" ++ s ++ "'"
  | JList l =>
      "[" ++ (fix go (l : list json) : string :=
                match l with
                | [] => ""
                | [x] => py_repr x
                | x :: rest => py_repr x ++ ", " ++ go rest
                end) l ++ "]"
  | JDict d =>
      "{" ++ (fix go (d : list (string * json)) : string :=
                match d with
                | [] => ""
                | [(k, x)] => "'" ++ k ++ "': " ++ py_repr x
                | (k, x) :: rest => "'" ++ k ++ "': " ++ py_repr x ++ ", " ++ go rest
                end) d ++ "}"
  end.

(** [ApprovalStatus(v)]: the member with that value, or [ValueError]. *)
Definition ApprovalStatus_of_value {S} (v : json) : M S ApprovalStatus :=
  match s ← as_str v;
        find (fun member => bool_decide (ApprovalStatus_value member = s))
             [PENDING; APPROVED; REJECTED; CANCELLED] with
  | Some member => ret member
  | None => raise (Exn ValueError (py_repr v ++ " is not a valid ApprovalStatus"))
  end.

(** An entry of [request.comments]: [{"user_id": ..., "comment": ...}]. *)
Record Comment := mkComment { user_id : string; comment : string }.

Record ApprovalRequest := mkRequest {
  id : string;
  requester_id : string;
  change_summary : string;
  change_details : json;
  approver_role : string;
  status : ApprovalStatus;
  created_at : datetime;
  updated_at : datetime;
  approver_id : option string;
  comments : list Comment
}.

Definition set_id (v : string) (r : ApprovalRequest) : ApprovalRequest :=
  mkRequest v (requester_id r) (change_summary r) (change_details r) (approver_role r)
            (status r) (created_at r) (updated_at r) (approver_id r) (comments r).
Definition set_status (v : ApprovalStatus) (r : ApprovalRequest) : ApprovalRequest :=
  mkRequest (id r) (requester_id r) (change_summary r) (change_details r) (approver_role r)
            v (created_at r) (updated_at r) (approver_id r) (comments r).
Definition set_updated_at (v : datetime) (r : ApprovalRequest) : ApprovalRequest :=
  mkRequest (id r) (requester_id r) (change_summary r) (change_details r) (approver_role r)
            (status r) (created_at r) v (approver_id r) (comments r).
Definition set_approver_id (v : option string) (r : ApprovalRequest) : ApprovalRequest :=
  mkRequest (id r) (requester_id r) (change_summary r) (change_details r) (approver_role r)
            (status r) (created_at r) (updated_at r) v (comments r).
Definition append_comment (c : Comment) (r : ApprovalRequest) : ApprovalRequest :=
  mkRequest (id r) (requester_id r) (change_summary r) (change_details r) (approver_role r)
            (status r) (created_at r) (updated_at r) (approver_id r) (comments r ++ [c])%list.

(** [ApprovalRequest.__init__]: a fresh id, then one clock reading that
    serves as both timestamps. *)
Definition ApprovalRequest_init {O} (requester_id change_summary : string)
    (change_details : json) (approver_role : string) : Method O ApprovalRequest :=
  new_id <- uuid4 ;;
  now <- datetime_now ;;
  ret (mkRequest new_id requester_id change_summary change_details approver_role
                 PENDING now now None []).

Definition Comment_to_dict (c : Comment) : json :=
  JDict [("user_id", JStr (user_id c)); ("comment", JStr (comment c))].

(** [ApprovalRequest.to_dict] *)
Definition to_dict (self : ApprovalRequest) : json :=
  JDict [ ("id", JStr (id self));
          ("requester_id", JStr (requester_id self));
          ("change_summary", JStr (change_summary self));
          ("change_details", change_details self);
          ("approver_role", JStr (approver_role self));
          ("status", JStr (ApprovalStatus_value (status self)));
          ("created_at", JStr (isoformat (created_at self)));
          ("updated_at", JStr (isoformat (updated_at self)));
          ("approver_id", json_of_option_str (approver_id self));
          ("comments", JList (map Comment_to_dict (comments self))) ].

(** ** src/workflows/approval.py: the workflow *)

(** The workflow reads its engine and never changes it, so the engine is
    held here as it is at the time of the call; the role table the engine
    refers to stays in the world. *)
Record ApprovalWorkflow := mkWorkflow {
  rbac_engine : RBACEngine;
  storage_file : string;
  requests : pydict ApprovalRequest
}.

Definition set_requests (f : pydict ApprovalRequest -> pydict ApprovalRequest)
    (wf : ApprovalWorkflow) : ApprovalWorkflow :=
  mkWorkflow (rbac_engine wf) (storage_file wf) (f (requests wf)).

(** [v[key]] with a string key. *)
Definition py_subscript {S} (v : json) (key : string) : M S json :=
  match v with
  | JDict d =>
      match dict_get d key with
      | Some x => ret x
      | None => raise (Exn KeyError ("'" ++ key ++ "'"))
      end
  | JList _ => raise (Exn TypeError "list indices must be integers or slices, not str")
  | JStr _ => raise (Exn TypeError "string indices must be integers")
  | _ => raise (Exn TypeError ("'" ++ type_name v ++ "' object is not subscriptable"))
  end.

(** A value about to be stored in an attribute annotated [str]. *)
Definition typed_str {S} (v : json) : M S string :=
  match as_str v with Some s => ret s | None => unmodelled end.

(** The body of the loop in [_load_requests]: one stored record is turned
    into a request and put into [requests]. Of the record it takes the key,
    the requester, the summary, the details and the status; the constructor
    supplies everything else. *)
Definition load_record {O} (requests : pydict ApprovalRequest) (item : string * json)
    : Method O (pydict ApprovalRequest) :=
  let '(req_id, req_data) := item in
  v1 <- py_subscript req_data "requester_id" ;;
  v2 <- py_subscript req_data "change_summary" ;;
  v3 <- py_subscript req_data "change_details" ;;
  a1 <- typed_str v1 ;;
  a2 <- typed_str v2 ;;
  req <- ApprovalRequest_init a1 a2 v3 "Approver" ;;
  let req := set_id req_id req in
  v4 <- py_subscript req_data "status" ;;
  st <- ApprovalStatus_of_value v4 ;;
  let req := set_status st req in
  ret (dict_set requests req_id req).

(** [ApprovalWorkflow._load_requests], which reads only
    [self.storage_file]. A missing or unparsable file gives the empty
    ledger; any other exception leaves the method. *)
Definition _load_requests {O} (storage_file : string) : Method O (pydict ApprovalRequest) :=
  try_except
    (data <- json_load storage_file ;;
     items <- py_items data ;;
     for_each load_record items [])
    [FileNotFoundError; JSONDecodeError]
    (fun _ => ret []).

(** [ApprovalWorkflow.__init__] *)
Definition ApprovalWorkflow_init (rbac_engine : RBACEngine) (storage_file : string)
    : Method unit ApprovalWorkflow :=
  requests <- _load_requests storage_file ;;
  ret (mkWorkflow rbac_engine storage_file requests).

(** [ApprovalWorkflow._save_requests] *)
Definition _save_requests : Method ApprovalWorkflow unit :=
  self <- get_self ;;
  json_dump
    (JDict (map (fun '(req_id, req) => (req_id, to_dict req)) (dict_items (requests self))))
    (storage_file self).

(** [ApprovalWorkflow.create_request] *)
Definition create_request (request : ApprovalRequest) : Method ApprovalWorkflow unit :=
  set_self (set_requests (fun rs => dict_set rs (id request) request)) ;;;
  _save_requests ;;;
  audit_logger_log INFRA_CHANGE_REQUESTED (requester_id request) (Some (id request))
                   (Some (JStr (change_summary request))) "success" ;;;
  console_print (Line ("[green]Approval request '" ++ id request ++ "' created.[/green]")).

(** Assignment to an attribute of the request object stored under
    [request_id]. The ledger holds records by value: this is the program on
    ledgers that hold each request object under one key, as every ledger that
    is well keyed does. *)
Definition update_request (request_id : string) (f : ApprovalRequest -> ApprovalRequest)
    : Method ApprovalWorkflow unit :=
  set_self (set_requests (fun rs =>
    match dict_get rs request_id with
    | Some r => dict_set rs request_id (f r)
    | None => rs
    end)).

(** [ApprovalWorkflow.approve_request] *)
Definition approve_request (request_id approver_id : string) (comment : option string)
    : Method ApprovalWorkflow unit :=
  self <- get_self ;;
  if negb (dict_contains (requests self) request_id) then
    raise (Exn ValueError "Approval request not found.")
  else
    w <- get_world ;;
    if negb (has_permission (rbac_engine self) w approver_id Permission.APPROVE_CHANGES) then
      raise (Exn PermissionError "You do not have permission to approve changes.")
    else
      update_request request_id (set_status APPROVED) ;;;
      update_request request_id (set_approver_id (Some approver_id)) ;;;
      now <- datetime_now ;;
      update_request request_id (set_updated_at now) ;;;
      match comment with
      | Some c =>
          if bool_decide (c = "") then ret tt
          else update_request request_id (append_comment (mkComment approver_id c))
      | None => ret tt
      end ;;;
      _save_requests ;;;
      audit_logger_log INFRA_CHANGE_APPROVED approver_id (Some request_id)
                       (Some (JDict [("comment", json_of_option_str comment)])) "success" ;;;
      console_print (Line ("[green]Approval request '" ++ request_id ++ "' approved.[/green]")).

(** The comprehension that opens [list_pending_requests]. *)
Definition pending_requests (self : ApprovalWorkflow) : list ApprovalRequest :=
  filter (fun req => status req = PENDING) (dict_values (requests self)).

(** [ApprovalWorkflow.list_pending_requests]: it prints and returns [None]. *)
Definition list_pending_requests : Method ApprovalWorkflow unit :=
  self <- get_self ;;
  match pending_requests self with
  | [] => console_print (Line "[yellow]No pending approval requests.[/yellow]")
  | pending =>
      console_print
        (TableOut "Pending Approval Requests"
           ["ID"; "Requester"; "Summary"; "Created At"]
           (map (fun req => [id req; requester_id req; change_summary req;
                             str_datetime (created_at req)])
                pending))
  end.

(** ** Calling the workflow by name *)

(** Everything [getattr] finds on a workflow: the methods of the class body
    and the attributes [__init__] sets. *)
Definition ApprovalWorkflow_attributes : list string :=
  [ "__init__"; "_load_requests"; "_save_requests";
    "create_request"; "approve_request"; "list_pending_requests";
    "rbac_engine"; "storage_file"; "requests" ].

Inductive py_arg :=
  | ArgNone
  | ArgStr (s : string)
  | ArgRequest (r : ApprovalRequest).

(** A call [workflow.method_name(args...)], resolved as [getattr] does. A name the object does not
    have raises [AttributeError]; the three public methods run on arguments
    of their annotated types. *)
Definition call_method (method_name : string) (args : list py_arg)
    : Method ApprovalWorkflow unit :=
  if negb (bool_decide (method_name ∈ ApprovalWorkflow_attributes)) then
    raise (Exn AttributeError
             ("'ApprovalWorkflow' object has no attribute '" ++ method_name ++ "'"))
  else if bool_decide (method_name = "create_request") then
    match args with
    | [ArgRequest request] => create_request request
    | _ => unmodelled
    end
  else if bool_decide (method_name = "approve_request") then
    match args with
    | [ArgStr request_id; ArgStr approver_id] => approve_request request_id approver_id None
    | [ArgStr request_id; ArgStr approver_id; ArgNone] =>
        approve_request request_id approver_id None
    | [ArgStr request_id; ArgStr approver_id; ArgStr c] =>
        approve_request request_id approver_id (Some c)
    | _ => unmodelled
    end
  else if bool_decide (method_name = "list_pending_requests") then
    match args with
    | [] => list_pending_requests
    | _ => unmodelled
    end
  else unmodelled.

(** ** Worlds and objects used in the examples *)

Definition tick (n : nat) : datetime := DateTime 2025 1 1 0 0 n 0.
Definition uuid_n (n : nat) : string := "uuid-" ++ pretty n.

(** The world right after the modules are imported. *)
Definition initial_world : World :=
  mkWorld {[ DEFAULT_ROLES_loc := DEFAULT_ROLES ]} ∅ tick 0 uuid_n 0 [] [] [].

(** An engine in which "alice" and "carol" hold the "Approver" role, built
    by the engine's own methods on the default role table. *)
Definition example_engine_state : RBACEngine * World :=
  snd ((assign_role_to_user "alice" "Approver" ;;;
        assign_role_to_user "carol" "Approver")
         (RBACEngine_init None initial_world, initial_world)).

Definition example_engine : RBACEngine := fst example_engine_state.
Definition example_world : World := snd example_engine_state.

(** The value a call returned, or [dflt] if it did not return. *)
Definition returned {A S} (dflt : A) (out : result A * S) : A :=
  match fst out with Ret a => a | _ => dflt end.

Definition no_request : ApprovalRequest :=
  mkRequest "" "" "" JNull "" PENDING (tick 0) (tick 0) None [].

(** [ApprovalRequest("bob", "add subnet", {})] *)
Definition example_request_out : result ApprovalRequest * (unit * World) :=
  ApprovalRequest_init "bob" "add subnet" (JDict []) "Approver" (tt, example_world).

Definition example_request : ApprovalRequest := returned no_request example_request_out.

(** A workflow on an empty store, after [create_request(example_request)]. *)
Definition pending_state : ApprovalWorkflow * World :=
  snd (create_request example_request
         (mkWorkflow example_engine "approvals.json" [], snd (snd example_request_out))).

(** The same after "alice" approved the request. *)
Definition approved_state : ApprovalWorkflow * World :=
  snd (approve_request (id example_request) "alice" None pending_state).

(** A second [approve_request] on the approved request, by "carol". *)
Definition second_approval : result unit * (ApprovalWorkflow * World) :=
  approve_request (id example_request) "carol" None approved_state.

(** Another request that carries the id of [example_request]. *)
Definition duplicate_request : ApprovalRequest :=
  set_id (id example_request)
    (returned no_request
       (ApprovalRequest_init "mallory" "drop database" (JDict []) "Approver"
          (tt, snd pending_state))).

Definition duplicate_creation : result unit * (ApprovalWorkflow * World) :=
  create_request duplicate_request pending_state.

(** Two requests made one after the other and submitted in the opposite
    order. *)
Definition first_made_out : result ApprovalRequest * (unit * World) :=
  ApprovalRequest_init "bob" "add subnet" (JDict []) "Approver" (tt, example_world).
Definition second_made_out : result ApprovalRequest * (unit * World) :=
  ApprovalRequest_init "dave" "resize cluster" (JDict []) "Approver" (snd first_made_out).

Definition swapped_state : ApprovalWorkflow * World :=
  snd ((create_request (returned no_request second_made_out) ;;;
        create_request (returned no_request first_made_out))
         (mkWorkflow example_engine "approvals.json" [], snd (snd second_made_out))).

(** A fresh workflow on the store that [pending_state] left. *)
Definition reloaded_pending : result ApprovalWorkflow * (unit * World) :=
  ApprovalWorkflow_init example_engine "approvals.json" (tt, snd pending_state).

(** A fresh workflow on the store that [approved_state] left. *)
Definition reloaded_approved : result ApprovalWorkflow * (unit * World) :=
  ApprovalWorkflow_init example_engine "approvals.json" (tt, snd approved_state).

Definition no_workflow : ApprovalWorkflow := mkWorkflow example_engine "" [].


(** [l] is in ascending order. *)
Fixpoint ascending (l : list datetime) : bool :=
  match l with
  | t1 :: ((t2 :: _) as rest) => datetime_leb t1 t2 && ascending rest
  | _ => true
  end.

(** ** Notions used in the statements *)

(** What [_save_requests] writes for a ledger. *)
Definition ledger_json (rs : pydict ApprovalRequest) : json :=
  JDict (map (fun '(req_id, req) => (req_id, to_dict req)) (dict_items rs)).

(** The request as [approve_request] leaves it. *)
Definition approved_by (approver : string) (now : datetime) (comment : option string)
    (r : ApprovalRequest) : ApprovalRequest :=
  let r' := set_updated_at now (set_approver_id (Some approver) (set_status APPROVED r)) in
  match comment with
  | Some c => if bool_decide (c = "") then r' else append_comment (mkComment approver c) r'
  | None => r'
  end.

(** [r'] is what loading makes of the record [r] stored under key [k]:
    key, requester, summary, details and status are those of [r]; role,
    approver, comments and both timestamps are the constructor's. *)
Definition reload_of (k : string) (r r' : ApprovalRequest) : Prop :=
  id r' = k
  ∧ requester_id r' = requester_id r
  ∧ change_summary r' = change_summary r
  ∧ change_details r' = change_details r
  ∧ status r' = status r
  ∧ approver_role r' = "Approver"
  ∧ approver_id r' = None
  ∧ comments r' = []
  ∧ updated_at r' = created_at r'.

(** The approver is recorded exactly on approved and rejected requests. *)
Definition approver_recorded (r : ApprovalRequest) : Prop :=
  is_Some (approver_id r) ↔ (status r = APPROVED ∨ status r = REJECTED).

Definition ledger_records_approvers (wf : ApprovalWorkflow) : Prop :=
  ∀ k r, dict_get (requests wf) k = Some r → approver_recorded r.

(** ** src/auth/rbac.py: the permission gate *)

Section RequiresPermission.
Context {O A : Type}.

(** What the wrapper finds under [self.rbac_engine] and
    [self.current_user_id]; [None] stands for an attribute that is missing
    or is not of the type the wrapper asks for. *)
Context (get_rbac_engine : O -> option RBACEngine).
Context (get_current_user_id : O -> option string).

(** [requires_permission(permission)(func)], called on [self] with the
    arguments [func] was given; [func_name] is [func.__name__]. *)
Definition requires_permission (permission func_name : string) (func : Method O A)
    : Method O A :=
  self <- get_self ;;
  match get_rbac_engine self with
  | None =>
      raise (Exn TypeError
               "Decorated object must have an 'rbac_engine' attribute of type RBACEngine.")
  | Some engine =>
      match get_current_user_id self with
      | None =>
          raise (Exn TypeError
                   "Decorated object must have a 'current_user_id' attribute of type str.")
      | Some user_id =>
          w <- get_world ;;
          if negb (has_permission engine w user_id permission) then
            logger_warning ("User '" ++ user_id ++ "' attempted to perform action '"
                            ++ func_name ++ "' without permission '" ++ permission ++ "'.") ;;;
            raise (Exn PermissionError
                     ("You do not have the required permission: " ++ permission))
          else func
      end
  end.
End RequiresPermission.

(** ** src/cli/workflow_commands.py and src/cli/auth_commands.py *)

(** The commands, run for a user who is logged in: [actor_id] is
    [current_user["id"]], a string. The module-level [rbac_engine] is the
    engine of the module-level [approval_workflow]. *)
Module WorkflowCommands.

(** [request_approval(summary, details)] *)
Definition request_approval (actor_id summary details : string)
    : Method ApprovalWorkflow unit :=
  self <- get_self ;;
  w <- get_world ;;
  if negb (has_permission (rbac_engine self) w actor_id Permission.CREATE_INFRA) then
    console_print (Line "[red]Permission denied. You need 'CREATE_INFRA' permission.[/red]") ;;;
    audit_logger_log PERMISSION_DENIED actor_id None
                     (Some (JDict [("permission", JStr Permission.CREATE_INFRA)])) "success"
  else
    request <- ApprovalRequest_init actor_id summary
                 (JDict [("description", JStr details)]) "Approver" ;;
    create_request request.

(** [approve(request_id, comment)]; the two exceptions [approve_request]
    raises itself are caught and shown. *)
Definition approve (actor_id request_id : string) (comment : option string)
    : Method ApprovalWorkflow unit :=
  try_except
    (approve_request request_id actor_id comment)
    [ValueError; PermissionError]
    (fun e => console_print (Line ("[red]Error: " ++ exn_msg e ++ "[/red]"))).

(** [list_pending()] *)
Definition list_pending (actor_id : string) : Method ApprovalWorkflow unit :=
  self <- get_self ;;
  w <- get_world ;;
  if negb (has_permission (rbac_engine self) w actor_id Permission.APPROVE_CHANGES) then
    console_print
      (Line "[red]Permission denied. You need 'APPROVE_CHANGES' permission.[/red]") ;;;
    audit_logger_log PERMISSION_DENIED actor_id None
                     (Some (JDict [("permission", JStr Permission.APPROVE_CHANGES)])) "success"
  else list_pending_requests.

End WorkflowCommands.

Module AuthCommands.

(** [assign_role(user_id, role_name)] *)
Definition assign_role (actor_id user_id role_name : string) : Method RBACEngine unit :=
  self <- get_self ;;
  w <- get_world ;;
  if negb (has_permission self w actor_id Permission.MANAGE_ROLES) then
    console_print (Line "[red]Permission denied. You need 'MANAGE_ROLES' permission.[/red]") ;;;
    audit_logger_log PERMISSION_DENIED actor_id None
                     (Some (JDict [("permission", JStr Permission.MANAGE_ROLES)])) "success"
  else
    try_except
      (assign_role_to_user user_id role_name ;;;
       audit_logger_log ROLE_ASSIGNED actor_id (Some user_id)
                        (Some (JDict [("role", JStr role_name)])) "success" ;;;
       console_print (Line ("Role '" ++ role_name ++ "' assigned to user '" ++ user_id ++ "'.")))
      [ValueError]
      (fun e => console_print (Line ("[red]Error: " ++ exn_msg e ++ "[/red]"))).

End AuthCommands.

(** ** Further notions used in the statements *)

(** Every record of the ledger is stored once, under its own id. *)
Definition well_keyed (rs : pydict ApprovalRequest) : Prop :=
  NoDup (dict_keys rs) ∧ ∀ k r, (k, r) ∈ rs → id r = k.

(** What the constructor, and nothing in the file, decides of a loaded
    request. *)
Definition fresh_from_load (r : ApprovalRequest) : Prop :=
  approver_role r = "Approver"
  ∧ approver_id r = None
  ∧ comments r = []
  ∧ updated_at r = created_at r.

(** The fields of a request that [approve_request] must leave alone. *)
Definition same_proposal (r r' : ApprovalRequest) : Prop :=
  id r' = id r
  ∧ requester_id r' = requester_id r
  ∧ change_summary r' = change_summary r
  ∧ change_details r' = change_details r
  ∧ approver_role r' = approver_role r
  ∧ created_at r' = created_at r.

(** The entry [AuditLogger.log] writes. *)
Definition audit_entry (now : datetime) (event : AuditEvent) (actor_id : string)
    (target_id : option string) (details : json) : json :=
  JDict [ ("timestamp", JStr (isoformat now));
          ("event", JStr (AuditEvent_value event));
          ("actor_id", JStr actor_id);
          ("target_id", json_of_option_str target_id);
          ("status", JStr "success");
          ("details", details) ].

(** ** Further worlds and objects used in the examples *)

(** A world with a second role table, and an engine made on it. *)
Definition ops_role : Role := Role_init "Ops" (Some {[ Permission.READ_INFRA ]}).
Definition two_tables_world : World :=
  set_role_tables (insert 1 [("Ops", ops_role)]) initial_world.
Definition ops_engine : RBACEngine := RBACEngine_init (Some 1) two_tables_world.

(** A world in which an empty dict was made to serve as role table. *)
Definition empty_table_world : World := set_role_tables (insert 1 []) initial_world.

(** A world whose RBAC state file holds a JSON list. *)
Definition list_world : World :=
  set_files (insert "rbac_state.json" (Json (JList [JStr "alice"]))) example_world.

(** A world whose ledger file is not JSON. *)
Definition garbled_ledger_world : World :=
  set_files (insert "approvals.json" (Garbled "Extra data: line 1 column 3 (char 2)"))
            example_world.

(** An object for the permission gate: an engine and the current user. *)
Definition gate_get_engine (o : RBACEngine * string) : option RBACEngine := Some (fst o).
Definition gate_get_user (o : RBACEngine * string) : option string := Some (snd o).

(** A gated method that leaves a line on the console. *)
Definition gated_action : Method (RBACEngine * string) unit :=
  console_print (Line "applied").

(** ** Notions for malformed state files and for the engine of a workflow *)




(** A world whose RBAC state file holds bytes that are not text. *)
Definition undecodable_world : World :=
  set_files (insert "rbac_state.json"
               (Undecodable "'utf-8' codec can't decode byte 0xff in position 0: invalid start byte"))
            example_world.

(** ** Dicts *)

Section PyDictFacts.
Context {V : Type}.
Implicit Types (d : pydict V) (k : string) (v : V).

Lemma dict_get_set_eq d k v : dict_get (dict_set d k v) k = Some v.
Proof.
  induction d as [|[k' v'] d IH]; simpl.
  - by rewrite bool_decide_true.
  - destruct (bool_decide (k' = k)) eqn:E; simpl.
    + by rewrite bool_decide_true.
    + by rewrite E.
Qed.

Lemma dict_get_set_ne d k k' v : k ≠ k' → dict_get (dict_set d k v) k' = dict_get d k'.
Proof.
  intros Hne. induction d as [|[k0 v0] d IH]; simpl.
  - by rewrite bool_decide_false.
  - destruct (bool_decide (k0 = k)) eqn:E; simpl.
    + apply bool_decide_eq_true in E as ->.
      by rewrite !bool_decide_false.
    + by rewrite IH.
Qed.

Lemma dict_set_set d k v v' : dict_set (dict_set d k v) k v' = dict_set d k v'.
Proof.
  induction d as [|[k0 v0] d IH]; simpl.
  - by rewrite bool_decide_true.
  - destruct (bool_decide (k0 = k)) eqn:E; simpl.
    + by rewrite bool_decide_true.
    + by rewrite E, IH.
Qed.

Lemma dict_contains_get d k : dict_contains d k = true ↔ is_Some (dict_get d k).
Proof.
  unfold dict_contains. destruct (dict_get d k); split; intros H; try done.
Qed.

(** Overwriting a key that is present keeps every key where it was. *)
Lemma dict_keys_set_present d k v :
  is_Some (dict_get d k) → dict_keys (dict_set d k v) = dict_keys d.
Proof.
  induction d as [|[k0 v0] d IH]; simpl; intros H.
  - by destruct H.
  - destruct (bool_decide (k0 = k)) eqn:E; simpl.
    + by apply bool_decide_eq_true in E as ->.
    + by rewrite (IH H).
Qed.

(** A new key goes to the end. *)
Lemma dict_set_absent d k v : dict_get d k = None → dict_set d k v = (d ++ [(k, v)])%list.
Proof.
  induction d as [|[k0 v0] d IH]; simpl; intros H; [done|].
  destruct (bool_decide (k0 = k)); [done|]. by rewrite (IH H).
Qed.
End PyDictFacts.

Lemma dict_get_not_key {V} (d : pydict V) k : k ∉ dict_keys d → dict_get d k = None.
Proof.
  induction d as [|[k0 v0] d IH]; simpl; [done|]. intros Hk.
  apply not_elem_of_cons in Hk as [Hne Hk].
  rewrite bool_decide_false by done. by apply IH.
Qed.

(** ** Running a method *)

Ltac run_py :=
  cbv [bind ret raise unmodelled get modify get_self set_self get_world set_world
       datetime_now uuid4 json_dump console_print logger_info logger_warning
       logger_error audit_logger_log update_request _save_requests fst snd].

Lemma for_each_keeps_state {S A B} (step : B → A → M S B) (xs : list A) (acc : B) (s : S) :
  (∀ acc x s, snd (step acc x s) = s) → snd (for_each step xs acc s) = s.
Proof.
  intros Hstep. revert acc. induction xs as [|x xs IH]; intros acc; [done|].
  simpl. unfold bind. specialize (Hstep acc x s).
  destruct (step acc x s) as [[b|e|] s']; simpl in *; subst; auto.
Qed.

(** ** The RBAC engine *)

Lemma fold_permissions_spec (table : pydict Role) (l : list string) (acc : gset string) p :
  p ∈ fold_left
        (fun acc role_name =>
           match dict_get table role_name with
           | Some role => acc ∪ permissions role
           | None => acc
           end) l acc
  ↔ p ∈ acc ∨ ∃ role_name role,
        role_name ∈ l ∧ dict_get table role_name = Some role ∧ p ∈ permissions role.
Proof.
  revert acc. induction l as [|rn l IH]; intros acc; simpl.
  - split; [auto|]. intros [H|(rn & role & H & _)]; [done|]. by apply elem_of_nil in H.
  - rewrite IH. split.
    + intros [H|(rn' & role & Hin & Hget & Hp)].
      * destruct (dict_get table rn) as [role|] eqn:E; [|by left].
        apply elem_of_union in H as [H|H]; [by left|].
        right. exists rn, role. split; [left|]; done.
      * right. exists rn', role. split; [by right|done].
    + intros [H|(rn' & role & Hin & Hget & Hp)].
      * left. destruct (dict_get table rn); [apply elem_of_union|]; auto.
      * apply elem_of_cons in Hin as [->|Hin].
        -- left. rewrite Hget. apply elem_of_union. by right.
        -- right. by exists rn', role.
Qed.

(** A user holds a permission exactly when one of the role names assigned
    to the user is in the role table with that permission; the names of the
    roles play no part. *)
Lemma has_permission_spec e w user_id permission :
  has_permission e w user_id permission = true
  ↔ ∃ role_name role,
      role_name ∈ default ∅ (dict_get (user_roles e) user_id)
      ∧ dict_get (roles_of e w) role_name = Some role
      ∧ permission ∈ permissions role.
Proof.
  unfold has_permission, get_user_permissions.
  rewrite bool_decide_eq_true, fold_permissions_spec.
  split.
  - intros [H|(rn & role & Hin & H)]; [by apply not_elem_of_empty in H|].
    exists rn, role. by rewrite <- elem_of_elements.
  - intros (rn & role & Hin & H). right. exists rn, role. by rewrite elem_of_elements.
Qed.

(** C9. Two engines constructed without a role table hold the same table,
    the module's [DEFAULT_ROLES]. When [add_role] on the first one succeeds
    for a role whose name is not yet in its table, the role is in the table
    of the second one as well, which before the call did not have it: the
    effect of [add_role] reaches every engine with default roles. *)
Theorem add_role_reaches_other_default_engines
    (wa wb w : World) (role : Role) :
  let A := RBACEngine_init None wa in
  let B := RBACEngine_init None wb in
  dict_contains (roles_of A w) (name role) = false →
  ∃ w',
    add_role role (A, w) = (Ret tt, (A, w'))
    ∧ roles B = roles A
    ∧ dict_get (roles_of B w) (name role) = None
    ∧ dict_get (roles_of B w') (name role) = Some role
    ∧ roles_of B w' = roles_of A w'.
Proof.
  intros A B Hfresh. subst A B. unfold RBACEngine_init in *.
  unfold add_role. run_py. cbn [roles] in *. rewrite Hfresh.
  eexists. split; [reflexivity|]. split; [reflexivity|]. split; [|split].
  - unfold dict_contains in Hfresh. by destruct (dict_get _ _).
  - unfold roles_of at 1. cbn [roles role_tables set_role_tables set_log].
    rewrite lookup_insert_eq. cbn [default from_option]. apply dict_get_set_eq.
  - reflexivity.
Qed.

(** Two default engines in the initial world and the role of the
    repository's own test. *)
Lemma add_role_reaches_other_default_engines_witness :
  let role := Role_init "test_role" (Some {[ "test_permission" ]}) in
  let A := RBACEngine_init None initial_world in
  let B := RBACEngine_init None initial_world in
  ∃ w',
    add_role role (A, initial_world) = (Ret tt, (A, w'))
    ∧ roles B = roles A
    ∧ dict_get (roles_of B initial_world) (name role) = None
    ∧ dict_get (roles_of B w') (name role) = Some role
    ∧ roles_of B w' = roles_of A w'.
Proof.
  apply (add_role_reaches_other_default_engines initial_world initial_world initial_world
           (Role_init "test_role" (Some {[ "test_permission" ]}))).
  vm_compute. reflexivity.
Defined.

(** [load_state] assigns [self.user_roles] at one place only, after the
    whole mapping was read. Whatever the file holds, when the call does not
    return normally the engine is the one before the call. *)
Lemma py_set_step_keeps_state {S} (acc : pydict (list json)) (x : string * json) (s : S) :
  snd ((let '(user_id, rs) := x in
        s0 <- py_set rs ;; ret (dict_set acc user_id s0)) s) = s.
Proof.
  destruct x as [u rs]. unfold py_set. run_py.
  destruct rs as [| | | |l|]; try done.
  by destruct (find _ l).
Qed.

Lemma load_state_failure_keeps_engine e w file_path :
  fst (load_state file_path (e, w)) ≠ Ret tt →
  fst (snd (load_state file_path (e, w))) = e.
Proof.
  unfold load_state, try_except, json_load. run_py.
  destruct (files w !! file_path) as [[v|err|err]|]; [|done..].
  unfold py_get, py_items. run_py.
  destruct v as [| | | | |d]; try done.
  destruct (default (JDict []) (dict_get d "user_roles")) as [| | | | |ur]; try done.
  cbv beta iota.
  match goal with |- context [for_each ?f ?xs ?acc ?s] =>
    pose proof (for_each_keeps_state f xs acc s
                  (fun a x s0 => py_set_step_keeps_state a x s0)) as Hkeep;
    destruct (for_each f xs acc s) as [[raw|ex|] s'] end; simpl in Hkeep; subst s'.
  - destruct (as_user_roles raw); simpl; done.
  - destruct (bool_decide _); [destruct (exn_cls ex)|]; done.
  - done.
Qed.







(** The same engine on a state file of bytes that are not text: the
    decoding error leaves the call. *)
Example load_state_undecodable_example :
  load_state "rbac_state.json" (example_engine, undecodable_world)
  = (Raise (Exn UnicodeDecodeError
              "'utf-8' codec can't decode byte 0xff in position 0: invalid start byte"),
     (example_engine, undecodable_world)).
Proof. vm_compute. reflexivity. Qed.

(** And on a state file that holds a JSON list: a list has no [get]. *)
Example load_state_list_example :
  ∃ msg, load_state "rbac_state.json" (example_engine, list_world)
         = (Raise (Exn AttributeError msg), (example_engine, list_world)).
Proof. eexists. vm_compute. reflexivity. Qed.

(** ** The approval workflow *)

(** The error path of [approve_request] for a known request: nothing at all
    is changed. *)
Lemma approve_request_denied wf w request_id actor comment :
  is_Some (dict_get (requests wf) request_id) →
  has_permission (rbac_engine wf) w actor Permission.APPROVE_CHANGES = false →
  approve_request request_id actor comment (wf, w)
  = (Raise (Exn PermissionError "You do not have permission to approve changes."), (wf, w)).
Proof.
  intros Hin Hperm. apply dict_contains_get in Hin.
  unfold approve_request. run_py.
  rewrite Hin. cbv beta iota delta [negb]. by rewrite Hperm.
Qed.

(** The success path of [approve_request], whatever the status was. *)
Lemma approve_request_permitted wf w request_id r approver comment :
  dict_get (requests wf) request_id = Some r →
  has_permission (rbac_engine wf) w approver Permission.APPROVE_CHANGES = true →
  ∃ w',
    let now := clock_tape w (clock_pos w) in
    let rs' := dict_set (requests wf) request_id (approved_by approver now comment r) in
    approve_request request_id approver comment (wf, w)
    = (Ret tt, (set_requests (fun _ => rs') wf, w'))
    ∧ files w' = <[storage_file wf := Json (ledger_json rs')]> (files w)
    ∧ role_tables w' = role_tables w.
Proof.
  intros Hget Hperm.
  assert (dict_contains (requests wf) request_id = true) as Hin
    by (apply dict_contains_get; eauto).
  unfold approve_request. run_py.
  rewrite Hin. cbv beta iota delta [negb]. rewrite Hperm. simpl.
  destruct wf as [eng file rs].
  unfold set_requests; cbn [requests rbac_engine storage_file] in *.
  rewrite Hget, !dict_get_set_eq, !dict_set_set.
  unfold approved_by, ledger_json, dict_items.
  destruct comment as [c|]; [destruct (bool_decide (c = ""))|];
    unfold set_requests; cbn [requests rbac_engine storage_file];
    rewrite ?dict_get_set_eq, ?dict_set_set;
    (eexists; split; [reflexivity|split; reflexivity]).
Qed.

(** C3. In a ledger that holds a pending request [R], [approve_request] by
    an actor to whom the RBAC engine does not grant the approve-changes
    permission raises [PermissionError]. The workflow and the world after
    the call are those before it: [R] is still stored under its id with
    status pending and the approver it had (none, if it had none), and the
    ledger file was not written. *)
Theorem approve_request_without_permission
    (wf : ApprovalWorkflow) (w : World) (request_id actor : string)
    (comment : option string) (R : ApprovalRequest) :
  dict_get (requests wf) request_id = Some R →
  status R = PENDING →
  has_permission (rbac_engine wf) w actor Permission.APPROVE_CHANGES = false →
  ∃ msg wf' w',
    approve_request request_id actor comment (wf, w)
    = (Raise (Exn PermissionError msg), (wf', w'))
    ∧ wf' = wf ∧ w' = w
    ∧ (∃ R', dict_get (requests wf') request_id = Some R'
             ∧ status R' = PENDING ∧ approver_id R' = approver_id R)
    ∧ files w' = files w.
Proof.
  intros Hget Hpending Hperm.
  eexists _, wf, w. split.
  - apply approve_request_denied; eauto.
  - repeat split; eauto.
Qed.

(** "bob", who has no role, on the pending request of [pending_state]. *)
Lemma approve_request_without_permission_witness :
  ∃ msg wf' w',
    approve_request (id example_request) "bob" None (fst pending_state, snd pending_state)
    = (Raise (Exn PermissionError msg), (wf', w'))
    ∧ wf' = fst pending_state ∧ w' = snd pending_state
    ∧ (∃ R', dict_get (requests wf') (id example_request) = Some R'
             ∧ status R' = PENDING ∧ approver_id R' = approver_id example_request)
    ∧ files w' = files (snd pending_state).
Proof.
  apply (approve_request_without_permission
           (fst pending_state) (snd pending_state) (id example_request) "bob" None
           example_request); vm_compute; reflexivity.
Defined.

(** What [approve_request] records of its [comment] argument: an entry for
    a string that is not empty, nothing for [None] and for the empty
    string. *)
Lemma approve_request_comment_recorded wf w request_id approver comment R :
  dict_get (requests wf) request_id = Some R →
  has_permission (rbac_engine wf) w approver Permission.APPROVE_CHANGES = true →
  ∃ wf' w' R',
    approve_request request_id approver comment (wf, w) = (Ret tt, (wf', w'))
    ∧ dict_get (requests wf') request_id = Some R'
    ∧ comments R' =
        match comment with
        | Some c => if bool_decide (c = "") then comments R
                    else (comments R ++ [mkComment approver c])%list
        | None => comments R
        end.
Proof.
  intros Hget Hperm.
  destruct (approve_request_permitted wf w request_id R approver comment Hget Hperm)
    as (w' & Hrun & _).
  eexists _, w', _. split; [exact Hrun|]. split.
  - cbn [set_requests requests]. apply dict_get_set_eq.
  - unfold approved_by. destruct comment as [c|]; [destruct (bool_decide (c = ""))|]; reflexivity.
Qed.

(** C10. For a pending request and an approver who holds the permission,
    [approve_request] with the empty string as comment succeeds and sets
    the status to approved, and the request's comments are the ones it had:
    no entry is appended. *)
Theorem approve_request_empty_comment
    (wf : ApprovalWorkflow) (w : World) (request_id approver : string)
    (R : ApprovalRequest) :
  dict_get (requests wf) request_id = Some R →
  status R = PENDING →
  has_permission (rbac_engine wf) w approver Permission.APPROVE_CHANGES = true →
  ∃ wf' w' R',
    approve_request request_id approver (Some "") (wf, w) = (Ret tt, (wf', w'))
    ∧ dict_get (requests wf') request_id = Some R'
    ∧ status R' = APPROVED
    ∧ comments R' = comments R.
Proof.
  intros Hget _ Hperm.
  destruct (approve_request_permitted wf w request_id R approver (Some "") Hget Hperm)
    as (w' & Hrun & _).
  eexists _, w', _. split; [exact Hrun|]. split.
  - cbn [set_requests requests]. apply dict_get_set_eq.
  - split; reflexivity.
Qed.

(** "alice" approving the request of [pending_state] with an empty comment. *)
Lemma approve_request_empty_comment_witness :
  ∃ wf' w' R',
    approve_request (id example_request) "alice" (Some "")
                    (fst pending_state, snd pending_state) = (Ret tt, (wf', w'))
    ∧ dict_get (requests wf') (id example_request) = Some R'
    ∧ status R' = APPROVED
    ∧ comments R' = comments example_request.
Proof.
  apply (approve_request_empty_comment
           (fst pending_state) (snd pending_state) (id example_request) "alice"
           example_request); vm_compute; reflexivity.
Defined.

(** C1, as the code has it. The request of [approved_state] is approved,
    by "alice". A second [approve_request] on it, by "carol", returns
    normally instead of raising, and the record is not what it was: its
    approver is now "carol" and its [updated_at] moved from the third to the
    fifth clock reading. *)
Lemma approve_request_twice_counterexample :
  status <$> dict_get (requests (fst approved_state)) (id example_request) = Some APPROVED
  ∧ approver_id <$> dict_get (requests (fst approved_state)) (id example_request)
    = Some (Some "alice")
  ∧ updated_at <$> dict_get (requests (fst approved_state)) (id example_request)
    = Some (tick 2)
  ∧ fst second_approval = Ret tt
  ∧ (∀ e, fst second_approval ≠ Raise e)
  ∧ approver_id <$> dict_get (requests (fst (snd second_approval))) (id example_request)
    = Some (Some "carol")
  ∧ updated_at <$> dict_get (requests (fst (snd second_approval))) (id example_request)
    = Some (tick 4).
Proof. vm_compute. repeat split; try reflexivity. intros e H; discriminate H. Qed.

(** C1, amended. [approve_request] does not look at the status. On a
    request that is already approved, a caller who holds the approve-changes
    permission succeeds again: the status stays approved, the approver
    becomes this caller and [updated_at] becomes the current clock reading.
    A caller without the permission gets [PermissionError] and nothing is
    changed. *)
Theorem approve_request_on_approved
    (wf : ApprovalWorkflow) (w : World) (request_id approver : string)
    (comment : option string) (R : ApprovalRequest) :
  dict_get (requests wf) request_id = Some R →
  status R = APPROVED →
  if has_permission (rbac_engine wf) w approver Permission.APPROVE_CHANGES then
    ∃ wf' w' R',
      approve_request request_id approver comment (wf, w) = (Ret tt, (wf', w'))
      ∧ dict_get (requests wf') request_id = Some R'
      ∧ status R' = APPROVED
      ∧ approver_id R' = Some approver
      ∧ updated_at R' = clock_tape w (clock_pos w)
  else
    approve_request request_id approver comment (wf, w)
    = (Raise (Exn PermissionError "You do not have permission to approve changes."), (wf, w)).
Proof.
  intros Hget _.
  destruct (has_permission _ _ _ _) eqn:Hperm.
  - destruct (approve_request_permitted wf w request_id R approver comment Hget Hperm)
      as (w' & Hrun & _).
    eexists _, w', _. split; [exact Hrun|]. split.
    + cbn [set_requests requests]. apply dict_get_set_eq.
    + unfold approved_by.
      destruct comment as [c|]; [destruct (bool_decide (c = ""))|]; repeat split; reflexivity.
  - apply approve_request_denied; eauto.
Qed.

(** "carol" approving what "alice" has approved in [approved_state]. *)
Lemma approve_request_on_approved_witness :
  ∃ wf' w' R',
    approve_request (id example_request) "carol" None
                    (fst approved_state, snd approved_state) = (Ret tt, (wf', w'))
    ∧ dict_get (requests wf') (id example_request) = Some R'
    ∧ status R' = APPROVED
    ∧ approver_id R' = Some "carol"
    ∧ updated_at R' = clock_tape (snd approved_state) (clock_pos (snd approved_state)).
Proof.
  exact (approve_request_on_approved
           (fst approved_state) (snd approved_state) (id example_request) "carol" None
           (approved_by "alice" (tick 2) None example_request)
           eq_refl eq_refl).
Defined.

(** [create_request] never fails and never looks for the id: the request is
    stored under its id, the ledger is written out, one audit entry and one
    console line follow. *)
Lemma create_request_runs wf w request :
  ∃ w',
    let rs' := dict_set (requests wf) (id request) request in
    create_request request (wf, w) = (Ret tt, (set_requests (fun _ => rs') wf, w'))
    ∧ files w' = <[storage_file wf := Json (ledger_json rs')]> (files w)
    ∧ audit_trail w' =
        (audit_trail w ++
         [JDict [ ("timestamp", JStr (isoformat (clock_tape w (clock_pos w))));
                  ("event", JStr "infra.change.requested");
                  ("actor_id", JStr (requester_id request));
                  ("target_id", JStr (id request));
                  ("status", JStr "success");
                  ("details", if bool_decide (change_summary request = "")
                              then JDict [] else JStr (change_summary request)) ]])%list.
Proof.
  unfold create_request. run_py. destruct wf as [eng file rs].
  unfold set_requests. cbn [requests rbac_engine storage_file].
  eexists. split; [reflexivity|]. split; [reflexivity|].
  cbn [set_console set_audit_trail set_clock_pos set_files audit_trail clock_tape clock_pos
       truthy AuditEvent_value json_of_option_str].
  by destruct (bool_decide (change_summary request = "")).
Qed.

(** C7, as the code has it. The ledger of [pending_state] holds a request
    of "bob" under the id of [example_request]. Creating [duplicate_request],
    which has the same id, returns normally instead of raising; the record
    under that id is now the one of "mallory", in memory and in the ledger
    file. *)
Lemma create_request_duplicate_counterexample :
  id duplicate_request = id example_request
  ∧ dict_get (requests (fst pending_state)) (id example_request) = Some example_request
  ∧ requester_id example_request = "bob"
  ∧ fst duplicate_creation = Ret tt
  ∧ (∀ e, fst duplicate_creation ≠ Raise e)
  ∧ requester_id <$> dict_get (requests (fst (snd duplicate_creation))) (id example_request)
    = Some "mallory"
  ∧ files (snd (snd duplicate_creation)) !! "approvals.json"
    = Some (Json (JDict [(id example_request, to_dict duplicate_request)]))
  ∧ files (snd (snd duplicate_creation)) ≠ files (snd pending_state).
Proof.
  vm_compute. repeat split; try reflexivity.
  - intros e H; discriminate H.
  - intros H. discriminate H.
Qed.

(** C7, amended. [create_request] has no check for an id that is already in
    the ledger. For a request whose id is present the call succeeds, the
    record under that id is replaced by the new request and keeps its place
    in the ledger, every other record is kept, and the ledger file is
    rewritten with the new contents. *)
Theorem create_request_existing_id
    (wf : ApprovalWorkflow) (w : World) (request : ApprovalRequest) :
  is_Some (dict_get (requests wf) (id request)) →
  ∃ wf' w',
    create_request request (wf, w) = (Ret tt, (wf', w'))
    ∧ dict_get (requests wf') (id request) = Some request
    ∧ dict_keys (requests wf') = dict_keys (requests wf)
    ∧ (∀ k, k ≠ id request → dict_get (requests wf') k = dict_get (requests wf) k)
    ∧ files w' = <[storage_file wf := Json (ledger_json (requests wf'))]> (files w).
Proof.
  intros Hin.
  destruct (create_request_runs wf w request) as (w' & Hrun & Hfiles & _).
  eexists _, w'. split; [exact Hrun|].
  cbn [set_requests requests]. repeat split.
  - apply dict_get_set_eq.
  - by apply dict_keys_set_present.
  - intros k Hk. by apply dict_get_set_ne.
  - exact Hfiles.
Qed.

(** [duplicate_request] on the ledger of [pending_state]. *)
Lemma create_request_existing_id_witness :
  ∃ wf' w',
    create_request duplicate_request (fst pending_state, snd pending_state)
    = (Ret tt, (wf', w'))
    ∧ dict_get (requests wf') (id duplicate_request) = Some duplicate_request
    ∧ dict_keys (requests wf') = dict_keys (requests (fst pending_state))
    ∧ (∀ k, k ≠ id duplicate_request →
            dict_get (requests wf') k = dict_get (requests (fst pending_state)) k)
    ∧ files w' = <[storage_file (fst pending_state) := Json (ledger_json (requests wf'))]>
                   (files (snd pending_state)).
Proof.
  apply (create_request_existing_id (fst pending_state) (snd pending_state) duplicate_request).
  vm_compute. eexists. reflexivity.
Defined.

(** C8, as the code has it. In [swapped_state] both requests are pending;
    the one made second was submitted first. The listing shows them in the
    order of submission, the later creation time first, so it is not in
    ascending order of creation time. *)
Lemma list_pending_requests_order_counterexample :
  map status (dict_values (requests (fst swapped_state))) = [PENDING; PENDING]
  ∧ map created_at (pending_requests (fst swapped_state)) = [tick 1; tick 0]
  ∧ datetime_leb (tick 1) (tick 0) = false
  ∧ ascending (map created_at (pending_requests (fst swapped_state))) = false
  ∧ console (snd (snd (list_pending_requests swapped_state)))
    = (console (snd swapped_state) ++
       [TableOut "Pending Approval Requests" ["ID"; "Requester"; "Summary"; "Created At"]
          [ ["uuid-1"; "dave"; "resize cluster"; "2025-01-01 00:00:01+00:00"];
            ["uuid-0"; "bob"; "add subnet"; "2025-01-01 00:00:00+00:00"] ]])%list.
Proof. vm_compute. repeat split; reflexivity. Qed.

(** C8, amended. [list_pending_requests] is a read-only query: it returns
    [None], leaves the workflow as it was and changes nothing in the world
    but the console, where it prints one item. The requests it shows are
    exactly the records whose status is pending, each as often as the
    ledger holds it, in the order in which the ledger holds them (the order
    in which their ids were first inserted); it does not sort them. With no
    pending request the item is a notice, otherwise a table with one row per
    pending request. *)
Theorem list_pending_requests_read_only
    (wf : ApprovalWorkflow) (w : World) :
  ∃ item,
    list_pending_requests (wf, w)
    = (Ret tt, (wf, set_console (fun c => (c ++ [item])%list) w))
    ∧ (∀ r, r ∈ pending_requests wf ↔ r ∈ dict_values (requests wf) ∧ status r = PENDING)
    ∧ sublist (pending_requests wf) (dict_values (requests wf))
    ∧ item =
        match pending_requests wf with
        | [] => Line "[yellow]No pending approval requests.[/yellow]"
        | _ =>
            TableOut "Pending Approval Requests"
              ["ID"; "Requester"; "Summary"; "Created At"]
              (map (fun req => [id req; requester_id req; change_summary req;
                                str_datetime (created_at req)])
                   (pending_requests wf))
        end.
Proof.
  refine (ex_intro _ _ (conj _ (conj _ (conj _ eq_refl)))).
  - unfold list_pending_requests. run_py.
    destruct (pending_requests wf) eqn:E; reflexivity.
  - intros r. unfold pending_requests. rewrite list_elem_of_filter. tauto.
  - unfold pending_requests. apply sublist_filter.
Qed.



(** ** Persistence of the ledger *)

Lemma ApprovalStatus_of_value_value {S} (st : ApprovalStatus) :
  @ApprovalStatus_of_value S (JStr (ApprovalStatus_value st)) = ret st.
Proof. by destruct st. Qed.

(** Loading one record that [to_dict] wrote. *)
Lemma load_record_to_dict {O} (acc : pydict ApprovalRequest) (k : string)
    (r : ApprovalRequest) (o : O) (w : World) :
  ∃ r',
    load_record acc (k, to_dict r) (o, w)
    = (Ret (dict_set acc k r'), (o, set_clock_pos S (set_uuid_pos S w)))
    ∧ reload_of k r r'
    ∧ created_at r' = clock_tape w (clock_pos w).
Proof.
  eexists. split.
  - unfold load_record.
    change (py_subscript (to_dict r) "requester_id") with (@ret (O * World) _ (JStr (requester_id r))).
    change (py_subscript (to_dict r) "change_summary") with (@ret (O * World) _ (JStr (change_summary r))).
    change (py_subscript (to_dict r) "change_details") with (@ret (O * World) _ (change_details r)).
    change (py_subscript (to_dict r) "status")
      with (@ret (O * World) _ (JStr (ApprovalStatus_value (status r)))).
    unfold ApprovalRequest_init, typed_str. run_py. cbn [as_str].
    rewrite ApprovalStatus_of_value_value. run_py. reflexivity.
  - split; [|reflexivity]. repeat split.
Qed.

(** Loading the records that [_save_requests] wrote, one after the other:
    each takes one uuid and one clock reading, in the order of the file. *)
Lemma load_records_to_dict {O} (rs acc : pydict ApprovalRequest) (o : O) (w : World) :
  NoDup (dict_keys acc ++ dict_keys rs) →
  ∃ rs' w',
    for_each load_record (map (fun '(req_id, req) => (req_id, to_dict req)) rs) acc (o, w)
    = (Ret (acc ++ rs')%list, (o, w'))
    ∧ Forall2 (fun '(k, r) '(k', r') => k' = k ∧ reload_of k r r') rs rs'
    ∧ map created_at (dict_values rs')
      = map (fun i => clock_tape w (clock_pos w + i)) (seq 0 (length rs))
    ∧ files w' = files w
    ∧ clock_tape w' = clock_tape w
    ∧ clock_pos w' = clock_pos w + length rs.
Proof.
  revert acc w. induction rs as [|[k r] rs IH]; intros acc w Hnd.
  - exists [], w. simpl. rewrite app_nil_r, Nat.add_0_r. by repeat split.
  - cbn [map for_each]. unfold bind at 1.
    destruct (load_record_to_dict acc k r o w) as (r' & -> & Hrel & Hat).
    assert (dict_get acc k = None) as Hfresh.
    { apply dict_get_not_key. apply NoDup_app in Hnd as (_ & Hdisj & _).
      intros Hin. apply (Hdisj k Hin). simpl. left. }
    rewrite (dict_set_absent _ _ _ Hfresh).
    destruct (IH (acc ++ [(k, r')])%list (set_clock_pos S (set_uuid_pos S w)))
      as (rs' & w' & -> & Hall & Hstamps & Hfiles & Htape & Hpos).
    { unfold dict_keys in *. rewrite map_app. simpl. by rewrite <- app_assoc. }
    exists ((k, r') :: rs'), w'. rewrite <- app_assoc. split; [done|].
    split; [by constructor|]. split; [|split; [done|split; [done|]]].
    + unfold dict_values in *. cbn [map length seq snd].
      rewrite Hstamps, Hat, Nat.add_0_r.
      f_equal. rewrite <- seq_shift, map_map. apply map_ext. intros i.
      cbn [set_clock_pos set_uuid_pos clock_tape clock_pos]. f_equal. lia.
    + rewrite Hpos. cbn [set_clock_pos set_uuid_pos clock_pos length]. lia.
Qed.

(** The ledger that a fresh workflow loads from the file that
    [_save_requests] has just written. Keys, requesters, summaries, details
    and statuses come back; creation times do not: they are the clock
    readings taken while loading. *)
Lemma load_after_save (wf : ApprovalWorkflow) (w : World) :
  NoDup (dict_keys (requests wf)) →
  let w1 := snd (snd (_save_requests (wf, w))) in
  ∃ rs' w2,
    _load_requests (storage_file wf) (tt, w1) = (Ret rs', (tt, w2))
    ∧ Forall2 (fun '(k, r) '(k', r') => k' = k ∧ reload_of k r r') (requests wf) rs'
    ∧ map created_at (dict_values rs')
      = map (fun i => clock_tape w (clock_pos w + i)) (seq 0 (length (requests wf))).
Proof.
  intros Hnd w1.
  destruct (load_records_to_dict (O:=unit) (requests wf) [] tt w1 Hnd)
    as (rs' & w2 & Hrun & Hall & Hstamps & _).
  exists rs', w2. split; [|split; [done|]].
  - unfold _load_requests, try_except, json_load, py_items. run_py.
    subst w1. unfold _save_requests. run_py. cbn [files set_files].
    rewrite lookup_insert_eq. cbv beta iota.
    unfold dict_items. unfold _save_requests in Hrun. revert Hrun. run_py.
    unfold dict_items. intros ->. reflexivity.
  - rewrite Hstamps. reflexivity.
Qed.

(** What the round trip keeps of the pending requests: when every record
    is stored under its own id, the reloaded ledger lists pending requests
    with the same ids, requesters and summaries, in the same order. *)
Lemma reload_keeps_pending (wf wf' : ApprovalWorkflow) :
  Forall2 (fun '(k, r) '(k', r') => k' = k ∧ reload_of k r r') (requests wf) (requests wf') →
  (∀ k r, (k, r) ∈ requests wf → id r = k) →
  map id (pending_requests wf') = map id (pending_requests wf)
  ∧ map requester_id (pending_requests wf') = map requester_id (pending_requests wf)
  ∧ map change_summary (pending_requests wf') = map change_summary (pending_requests wf).
Proof.
  unfold pending_requests, dict_values.
  generalize (requests wf) (requests wf'). intros rs rs' Hall.
  induction Hall as [|[k r] [k' r'] rs rs' (-> & Hid & Hreq & Hsum & _ & Hst & _) Hall IH];
    intros Hkeys; [done|].
  destruct IH as (IH1 & IH2 & IH3).
  { intros k0 r0 Hin. apply Hkeys. by right. }
  assert (id r = k) as Hk by (apply Hkeys; left).
  cbn [map snd]. rewrite !filter_cons, Hst.
  destruct (decide (status r = PENDING)); cbn [map]; [|done].
  by rewrite IH1, IH2, IH3, Hid, Hreq, Hsum, Hk.
Qed.

(** C4, evaluated. [pending_state] holds one pending request, created at
    the first clock reading and written to the ledger file with that
    timestamp. A fresh workflow on the same file lists a pending request
    with the same id, requester and summary, but its creation time is the
    clock reading taken while loading: [_load_requests] does not read
    [created_at] back. *)
Lemma reload_loses_created_at :
  let wf1 := fst pending_state in
  let wf2 := returned no_workflow reloaded_pending in
  fst reloaded_pending = Ret wf2
  ∧ files (snd pending_state) !! "approvals.json"
    = Some (Json (ledger_json (requests wf1)))
  ∧ map id (pending_requests wf2) = map id (pending_requests wf1)
  ∧ map requester_id (pending_requests wf2) = map requester_id (pending_requests wf1)
  ∧ map change_summary (pending_requests wf2) = map change_summary (pending_requests wf1)
  ∧ map created_at (pending_requests wf1) = [tick 0]
  ∧ map created_at (pending_requests wf2) = [tick 2]
  ∧ map (fun r => str_datetime (created_at r)) (pending_requests wf1)
    = ["2025-01-01 00:00:00+00:00"]
  ∧ map (fun r => str_datetime (created_at r)) (pending_requests wf2)
    = ["2025-01-01 00:00:02+00:00"].
Proof. vm_compute. repeat split; reflexivity. Qed.

Lemma approved_by_recorded approver now comment r :
  approver_recorded (approved_by approver now comment r).
Proof.
  unfold approver_recorded, approved_by.
  destruct comment as [c|]; [destruct (bool_decide (c = ""))|]; simpl; split; eauto.
Qed.

(** A request fresh from the constructor is pending and has no approver. *)
Lemma ApprovalRequest_init_recorded {O} a1 a2 v3 role (s s' : O * World) r :
  ApprovalRequest_init a1 a2 v3 role s = (Ret r, s') → approver_recorded r.
Proof.
  unfold ApprovalRequest_init. run_py. intros [= <- _].
  unfold approver_recorded. simpl. split.
  - by intros [? ?].
  - by intros [?|?].
Qed.

(** [create_request] of a request that records its approver as it should
    keeps a ledger in which all do. *)
Lemma create_request_keeps_approvers wf w request out wf' w' :
  ledger_records_approvers wf → approver_recorded request →
  create_request request (wf, w) = (out, (wf', w')) →
  ledger_records_approvers wf'.
Proof.
  intros Hinv Hreq Hrun.
  destruct (create_request_runs wf w request) as (w0 & Hrun' & _).
  rewrite Hrun' in Hrun. injection Hrun as _ <- _.
  intros k r. cbn [set_requests requests].
  destruct (decide (id request = k)) as [<-|Hne].
  - rewrite dict_get_set_eq. by intros [= <-].
  - rewrite dict_get_set_ne by done. apply Hinv.
Qed.

(** So does [approve_request], however it ends. *)
Lemma approve_request_keeps_approvers wf w request_id approver comment out wf' w' :
  ledger_records_approvers wf →
  approve_request request_id approver comment (wf, w) = (out, (wf', w')) →
  ledger_records_approvers wf'.
Proof.
  intros Hinv Hrun.
  destruct (dict_get (requests wf) request_id) as [r|] eqn:Hget.
  - destruct (has_permission (rbac_engine wf) w approver Permission.APPROVE_CHANGES) eqn:Hperm.
    + destruct (approve_request_permitted wf w request_id r approver comment Hget Hperm)
        as (w0 & Hrun' & _).
      rewrite Hrun' in Hrun. injection Hrun as _ <- _.
      intros k r0. cbn [set_requests requests].
      destruct (decide (request_id = k)) as [<-|Hne].
      * rewrite dict_get_set_eq. intros [= <-]. apply approved_by_recorded.
      * rewrite dict_get_set_ne by done. apply Hinv.
    + rewrite approve_request_denied in Hrun by eauto.
      by injection Hrun as _ <- _.
  - revert Hrun. unfold approve_request. run_py.
    unfold dict_contains. rewrite Hget. cbv beta iota delta [negb].
    by intros [= _ <- _].
Qed.


(** C5, evaluated. In [approved_state] the request is approved by "alice",
    and the ledger file says so. A fresh workflow loaded from that file
    holds the request with status approved and no approver:
    [_load_requests] restores the status and leaves [approver_id] as the
    constructor set it. *)
Lemma reload_loses_approver_id :
  let wf1 := fst approved_state in
  let wf2 := returned no_workflow reloaded_approved in
  fst reloaded_approved = Ret wf2
  ∧ status <$> dict_get (requests wf1) (id example_request) = Some APPROVED
  ∧ approver_id <$> dict_get (requests wf1) (id example_request) = Some (Some "alice")
  ∧ files (snd approved_state) !! "approvals.json"
    = Some (Json (ledger_json (requests wf1)))
  ∧ status <$> dict_get (requests wf2) (id example_request) = Some APPROVED
  ∧ approver_id <$> dict_get (requests wf2) (id example_request) = Some None.
Proof. vm_compute. repeat split; reflexivity. Qed.

(** ** The examples and the repository's tests *)

(** The calls that build the example states all return normally. *)
Lemma example_calls_return :
  fst example_request_out = Ret example_request
  ∧ fst (create_request example_request
           (mkWorkflow example_engine "approvals.json" [], snd (snd example_request_out)))
    = Ret tt
  ∧ fst (approve_request (id example_request) "alice" None pending_state) = Ret tt
  ∧ (∃ r, fst first_made_out = Ret r ∧ created_at r = tick 0)
  ∧ (∃ r, fst second_made_out = Ret r ∧ created_at r = tick 1)
  ∧ user_roles example_engine = [("alice", {[ "Approver" ]}); ("carol", {[ "Approver" ]})].
Proof.
  vm_compute. repeat split; try reflexivity; eexists; split; reflexivity.
Qed.

(** tests/test_auth.py, [test_role_creation] and [test_permission_check]. *)
Lemma test_auth_passes :
  let engine := RBACEngine_init None initial_world in
  let new_role := Role_init "test_role" (Some {[ "test_permission" ]}) in
  let out1 := (add_role new_role ;;; assign_role_to_user "test_user" "test_role")
                (engine, initial_world) in
  let out2 := assign_role_to_user "test_user" "Admin" (engine, initial_world) in
  fst out1 = Ret tt
  ∧ has_permission (fst (snd out1)) (snd (snd out1)) "test_user" "test_permission" = true
  ∧ fst out2 = Ret tt
  ∧ has_permission (fst (snd out2)) (snd (snd out2)) "test_user" Permission.ADMIN_ACCESS = true
  ∧ has_permission (fst (snd out2)) (snd (snd out2)) "test_user" "invalid_permission" = false.
Proof. vm_compute. repeat split; reflexivity. Qed.

(** tests/test_workflows.py and the scenario of two users: "bob", without
    a role, cannot approve his own request; "alice", an approver, can, and
    her comment is the only one recorded. *)
Lemma test_workflows_passes :
  let request_id := id example_request in
  let denied := approve_request request_id "bob" None pending_state in
  let granted := approve_request request_id "alice" (Some "looks good") pending_state in
  is_Some (dict_get (requests (fst pending_state)) request_id)
  ∧ exn_cls <$> (match fst denied with Raise e => Some e | _ => None end)
    = Some PermissionError
  ∧ status <$> dict_get (requests (fst (snd denied))) request_id = Some PENDING
  ∧ fst granted = Ret tt
  ∧ status <$> dict_get (requests (fst (snd granted))) request_id = Some APPROVED
  ∧ approver_id <$> dict_get (requests (fst (snd granted))) request_id = Some (Some "alice")
  ∧ comments <$> dict_get (requests (fst (snd granted))) request_id
    = Some [mkComment "alice" "looks good"].
Proof. vm_compute. repeat split; try reflexivity. eexists; reflexivity. Qed.

(** ** More on the RBAC engine *)

#[local] Set Warnings "-clear-no-such-hyp".

(** What [assign_role_to_user] does for a role that is in the table. *)
Lemma assign_role_to_user_runs e w user_id role_name :
  dict_contains (roles_of e w) role_name = true →
  assign_role_to_user user_id role_name (e, w)
  = (Ret tt,
     (set_user_roles
        (fun ur => dict_set ur user_id
                     (default ∅ (dict_get ur user_id) ∪ {[ role_name ]})) e,
      set_log (fun l => (l ++ [(INFO, ("Assigned role '" ++ role_name ++ "' to user '"
                                        ++ user_id ++ "'.")%string)])%list) w)).
Proof.
  intros Hrole. unfold assign_role_to_user. run_py.
  rewrite Hrole. cbv beta iota delta [negb].
  unfold dict_contains. destruct e as [tbl ur]. unfold set_user_roles.
  cbn [user_roles roles].
  destruct (dict_get ur user_id) as [rs|] eqn:Hget; cbv beta iota delta [negb];
    cbn [user_roles roles fst snd].
  - by rewrite Hget.
  - by rewrite dict_get_set_eq, dict_set_set.
Qed.

(** What [remove_role_from_user] does for a role the user holds. *)
Lemma remove_role_from_user_runs e w user_id role_name rs :
  dict_get (user_roles e) user_id = Some rs → role_name ∈ rs →
  remove_role_from_user user_id role_name (e, w)
  = (Ret tt,
     (set_user_roles (fun ur => dict_set ur user_id (rs ∖ {[ role_name ]})) e,
      set_log (fun l => (l ++ [(INFO, ("Removed role '" ++ role_name ++ "' from user '"
                                        ++ user_id ++ "'.")%string)])%list) w)).
Proof.
  intros Hget Hin. unfold remove_role_from_user. run_py.
  rewrite Hget. by rewrite bool_decide_true.
Qed.

Lemma roles_of_set_log e f w : roles_of e (set_log f w) = roles_of e w.
Proof. reflexivity. Qed.

Lemma roles_of_set_user_roles f e w : roles_of (set_user_roles f e) w = roles_of e w.
Proof. reflexivity. Qed.

(** The table an engine sees after a table was stored at [l]. *)
Lemma roles_of_insert_eq e f l t w :
  roles e = l → roles_of e (set_log f (set_role_tables (insert l t) w)) = t.
Proof.
  intros <-. unfold roles_of. cbn [role_tables set_role_tables set_log].
  by rewrite lookup_insert_eq.
Qed.

Lemma roles_of_insert_ne e f l t w :
  roles e ≠ l → roles_of e (set_log f (set_role_tables (insert l t) w)) = roles_of e w.
Proof.
  intros Hne. unfold roles_of. cbn [role_tables set_role_tables set_log].
  by rewrite lookup_insert_ne.
Qed.

(** X1. [add_role] of a role whose name is already in the engine's table
    raises [ValueError]; the table keeps the role it had under that name
    and nothing else is changed either. *)
Theorem add_role_existing_name (e : RBACEngine) (w : World) (role : Role) :
  dict_contains (roles_of e w) (name role) = true →
  add_role role (e, w)
  = (Raise (Exn ValueError ("Role '" ++ name role ++ "' already exists.")), (e, w)).
Proof. intros Hin. unfold add_role. run_py. by rewrite Hin. Qed.

(** A second "Admin" role on a default engine. *)
Lemma add_role_existing_name_witness :
  add_role (Role_init "Admin" None) (RBACEngine_init None initial_world, initial_world)
  = (Raise (Exn ValueError ("Role '" ++ name (Role_init "Admin" None) ++ "' already exists.")),
     (RBACEngine_init None initial_world, initial_world)).
Proof.
  apply (add_role_existing_name (RBACEngine_init None initial_world) initial_world
           (Role_init "Admin" None)).
  vm_compute. reflexivity.
Defined.

(** X2. A successful [add_role] is confined to the table the engine refers
    to: the new role is in it, every other name of that table keeps its
    role, an engine that refers to another table sees no change, and
    neither the user assignments nor the files are touched. *)
Theorem add_role_confined_to_its_table (e e' : RBACEngine) (w : World) (role : Role) :
  dict_contains (roles_of e w) (name role) = false →
  roles e' ≠ roles e →
  ∃ w',
    add_role role (e, w) = (Ret tt, (e, w'))
    ∧ dict_get (roles_of e w') (name role) = Some role
    ∧ (∀ n, n ≠ name role → dict_get (roles_of e w') n = dict_get (roles_of e w) n)
    ∧ roles_of e' w' = roles_of e' w
    ∧ files w' = files w.
Proof.
  intros Hfresh Hother. unfold add_role. run_py. rewrite Hfresh.
  eexists. split; [reflexivity|].
  rewrite (roles_of_insert_eq e) by done. rewrite (roles_of_insert_ne e') by done.
  repeat split.
  - apply dict_get_set_eq.
  - intros n Hn. by apply dict_get_set_ne.
Qed.

(** A new role on the default table, seen from the engine on the table of
    [two_tables_world]. *)
Lemma add_role_confined_to_its_table_witness :
  ∃ w',
    add_role (Role_init "test_role" (Some {[ "test_permission" ]}))
             (RBACEngine_init None two_tables_world, two_tables_world)
    = (Ret tt, (RBACEngine_init None two_tables_world, w'))
    ∧ dict_get (roles_of (RBACEngine_init None two_tables_world) w')
               (name (Role_init "test_role" (Some {[ "test_permission" ]})))
      = Some (Role_init "test_role" (Some {[ "test_permission" ]}))
    ∧ (∀ n, n ≠ name (Role_init "test_role" (Some {[ "test_permission" ]})) →
            dict_get (roles_of (RBACEngine_init None two_tables_world) w') n
            = dict_get (roles_of (RBACEngine_init None two_tables_world) two_tables_world) n)
    ∧ roles_of ops_engine w' = roles_of ops_engine two_tables_world
    ∧ files w' = files two_tables_world.
Proof.
  apply (add_role_confined_to_its_table
           (RBACEngine_init None two_tables_world) ops_engine two_tables_world
           (Role_init "test_role" (Some {[ "test_permission" ]}))).
  - vm_compute. reflexivity.
  - vm_compute. intros H. discriminate H.
Defined.

(** X3. An engine constructed with a role table that is empty does not use
    it: [roles or DEFAULT_ROLES] picks the module's default table. A role
    added through such an engine lands in the default table, where every
    default engine sees it, and the table that was passed stays empty. *)
Theorem empty_role_table_falls_back_to_default (w : World) (l : loc) (role : Role) :
  role_tables w !! l = Some [] →
  l ≠ DEFAULT_ROLES_loc →
  dict_contains (roles_of (RBACEngine_init None w) w) (name role) = false →
  ∃ w',
    roles (RBACEngine_init (Some l) w) = DEFAULT_ROLES_loc
    ∧ add_role role (RBACEngine_init (Some l) w, w)
      = (Ret tt, (RBACEngine_init (Some l) w, w'))
    ∧ role_tables w' !! l = Some []
    ∧ dict_get (roles_of (RBACEngine_init None w') w') (name role) = Some role.
Proof.
  intros Hempty Hne Hfresh. unfold RBACEngine_init in *. rewrite Hempty.
  unfold add_role. run_py. cbn [roles] in *. rewrite Hfresh.
  eexists. split; [reflexivity|]. split; [reflexivity|].
  split.
  - cbn [role_tables set_role_tables set_log]. by rewrite lookup_insert_ne.
  - rewrite roles_of_insert_eq by done. apply dict_get_set_eq.
Qed.

(** The empty table of [empty_table_world]. *)
Lemma empty_role_table_falls_back_to_default_witness :
  ∃ w',
    roles (RBACEngine_init (Some 1) empty_table_world) = DEFAULT_ROLES_loc
    ∧ add_role ops_role (RBACEngine_init (Some 1) empty_table_world, empty_table_world)
      = (Ret tt, (RBACEngine_init (Some 1) empty_table_world, w'))
    ∧ role_tables w' !! 1 = Some []
    ∧ dict_get (roles_of (RBACEngine_init None w') w') (name ops_role) = Some ops_role.
Proof.
  apply (empty_role_table_falls_back_to_default empty_table_world 1 ops_role).
  - vm_compute. reflexivity.
  - vm_compute. intros H. discriminate H.
  - vm_compute. reflexivity.
Defined.

(** X4. [assign_role_to_user] with a role name that is not in the engine's
    table raises [ValueError] and changes neither the assignments nor
    anything else. *)
Theorem assign_role_unknown_role (e : RBACEngine) (w : World) (user_id role_name : string) :
  dict_contains (roles_of e w) role_name = false →
  assign_role_to_user user_id role_name (e, w)
  = (Raise (Exn ValueError ("Role '" ++ role_name ++ "' does not exist.")), (e, w)).
Proof. intros Hno. unfold assign_role_to_user. run_py. by rewrite Hno. Qed.

(** A role nobody defined. *)
Lemma assign_role_unknown_role_witness :
  assign_role_to_user "bob" "Owner" (example_engine, example_world)
  = (Raise (Exn ValueError ("Role '" ++ "Owner" ++ "' does not exist.")),
     (example_engine, example_world)).
Proof.
  apply (assign_role_unknown_role example_engine example_world "bob" "Owner").
  vm_compute. reflexivity.
Defined.

(** X5. After [assign_role_to_user] of a role that is in the table, the
    user holds the role name and has every permission of the role; the role
    tables are not touched. *)
Theorem assign_role_grants_permissions
    (e : RBACEngine) (w : World) (user_id role_name : string) (role : Role) :
  dict_get (roles_of e w) role_name = Some role →
  ∃ e' w',
    assign_role_to_user user_id role_name (e, w) = (Ret tt, (e', w'))
    ∧ roles e' = roles e
    ∧ role_tables w' = role_tables w
    ∧ role_name ∈ default ∅ (dict_get (user_roles e') user_id)
    ∧ ∀ p, p ∈ permissions role → has_permission e' w' user_id p = true.
Proof.
  intros Hrole.
  assert (dict_contains (roles_of e w) role_name = true) as Hin
    by (apply dict_contains_get; eauto).
  eexists _, _. split; [by apply assign_role_to_user_runs|].
  cbn [set_user_roles roles user_roles]. rewrite dict_get_set_eq. cbn [default from_option].
  repeat split.
  - set_solver.
  - intros p Hp. apply has_permission_spec. exists role_name, role.
    cbn [set_user_roles user_roles]. rewrite dict_get_set_eq. cbn [default from_option].
    split; [set_solver|]. by split.
Qed.

(** "bob" becomes a "Developer". *)
Lemma assign_role_grants_permissions_witness :
  ∃ e' w',
    assign_role_to_user "bob" "Developer" (example_engine, example_world) = (Ret tt, (e', w'))
    ∧ roles e' = roles example_engine
    ∧ role_tables w' = role_tables example_world
    ∧ "Developer" ∈ default ∅ (dict_get (user_roles e') "bob")
    ∧ ∀ p, p ∈ permissions (Role_init "Developer"
                              (Some {[ Permission.CREATE_INFRA; Permission.READ_INFRA;
                                       Permission.UPDATE_INFRA ]})) →
           has_permission e' w' "bob" p = true.
Proof.
  apply (assign_role_grants_permissions example_engine example_world "bob" "Developer").
  vm_compute. reflexivity.
Defined.

(** X6. Assigning a role a second time changes nothing in the engine: the
    assignments after the second call are those after the first. *)
Theorem assign_role_idempotent (e : RBACEngine) (w : World) (user_id role_name : string) :
  dict_contains (roles_of e w) role_name = true →
  ∃ e1 w1 w2,
    assign_role_to_user user_id role_name (e, w) = (Ret tt, (e1, w1))
    ∧ assign_role_to_user user_id role_name (e1, w1) = (Ret tt, (e1, w2)).
Proof.
  intros Hrole. eexists _, _, _. split; [by apply assign_role_to_user_runs|].
  rewrite assign_role_to_user_runs by done.
  destruct e as [tbl ur]. unfold set_user_roles. cbn [roles user_roles].
  rewrite dict_get_set_eq, dict_set_set. cbn [default from_option].
  do 3 f_equal. f_equal. set_solver.
Qed.

(** "alice", already an approver, is made one again. *)
Lemma assign_role_idempotent_witness :
  ∃ e1 w1 w2,
    assign_role_to_user "alice" "Approver" (example_engine, example_world) = (Ret tt, (e1, w1))
    ∧ assign_role_to_user "alice" "Approver" (e1, w1) = (Ret tt, (e1, w2)).
Proof.
  apply (assign_role_idempotent example_engine example_world "alice" "Approver").
  vm_compute. reflexivity.
Defined.

(** X7. Assigning a role takes nothing away: whoever had a permission
    before the call, the same user or another, has it after. *)
Theorem assign_role_never_revokes
    (e : RBACEngine) (w : World) (user_id role_name other permission : string) :
  dict_contains (roles_of e w) role_name = true →
  has_permission e w other permission = true →
  ∃ e' w',
    assign_role_to_user user_id role_name (e, w) = (Ret tt, (e', w'))
    ∧ has_permission e' w' other permission = true.
Proof.
  intros Hrole Hhad. eexists _, _. split; [by apply assign_role_to_user_runs|].
  apply has_permission_spec in Hhad as (rn & role & Hin & Hget & Hp).
  apply has_permission_spec. exists rn, role. split; [|by split].
  cbn [set_user_roles user_roles].
  destruct (decide (user_id = other)) as [->|Hne].
  - rewrite dict_get_set_eq. cbn [default from_option]. set_solver.
  - by rewrite dict_get_set_ne.
Qed.

(** "alice" keeps the right to approve when she is also made a developer. *)
Lemma assign_role_never_revokes_witness :
  ∃ e' w',
    assign_role_to_user "alice" "Developer" (example_engine, example_world)
    = (Ret tt, (e', w'))
    ∧ has_permission e' w' "alice" Permission.APPROVE_CHANGES = true.
Proof.
  apply (assign_role_never_revokes example_engine example_world
           "alice" "Developer" "alice" Permission.APPROVE_CHANGES);
    vm_compute; reflexivity.
Defined.

(** X8. [remove_role_from_user] for a role the user does not hold, or for a
    user the engine does not know, is a no-op: it returns normally and
    leaves the engine and the world exactly as they were. *)
Theorem remove_role_not_held (e : RBACEngine) (w : World) (user_id role_name : string) :
  role_name ∉ default ∅ (dict_get (user_roles e) user_id) →
  remove_role_from_user user_id role_name (e, w) = (Ret tt, (e, w)).
Proof.
  intros Hnot. unfold remove_role_from_user. run_py.
  destruct (dict_get (user_roles e) user_id) as [rs|]; [|done].
  cbn [default from_option] in Hnot. by rewrite bool_decide_false.
Qed.

(** "bob" has no entry at all. *)
Lemma remove_role_not_held_witness :
  remove_role_from_user "bob" "Approver" (example_engine, example_world)
  = (Ret tt, (example_engine, example_world)).
Proof.
  apply (remove_role_not_held example_engine example_world "bob" "Approver").
  apply (bool_decide_unpack _). vm_compute. exact I.
Defined.

(** X9. [remove_role_from_user] for a role the user holds takes that name
    out of the user's set and nothing more: the user keeps an entry, the
    other users keep their sets, the role tables are not touched, and no
    one gains a permission. *)
Theorem remove_role_held
    (e : RBACEngine) (w : World) (user_id role_name : string) (rs : gset string) :
  dict_get (user_roles e) user_id = Some rs →
  role_name ∈ rs →
  ∃ e' w',
    remove_role_from_user user_id role_name (e, w) = (Ret tt, (e', w'))
    ∧ dict_get (user_roles e') user_id = Some (rs ∖ {[ role_name ]})
    ∧ (∀ u, u ≠ user_id → dict_get (user_roles e') u = dict_get (user_roles e) u)
    ∧ role_tables w' = role_tables w
    ∧ (∀ u p, has_permission e' w' u p = true → has_permission e w u p = true).
Proof.
  intros Hget Hin. eexists _, _.
  split; [by apply (remove_role_from_user_runs e w user_id role_name rs)|].
  cbn [set_user_roles user_roles]. repeat split.
  - apply dict_get_set_eq.
  - intros u Hu. by apply dict_get_set_ne.
  - intros u p Hhas.
    apply has_permission_spec in Hhas as (rn & role & Hrn & Hrole & Hp).
    apply has_permission_spec. exists rn, role. split; [|by split].
    cbn [set_user_roles user_roles] in Hrn.
    destruct (decide (user_id = u)) as [<-|Hne].
    + rewrite dict_get_set_eq in Hrn. rewrite Hget. cbn [default from_option] in *.
      set_solver.
    + by rewrite dict_get_set_ne in Hrn.
Qed.

(** "alice" stops being an approver. *)
Lemma remove_role_held_witness :
  ∃ e' w',
    remove_role_from_user "alice" "Approver" (example_engine, example_world)
    = (Ret tt, (e', w'))
    ∧ dict_get (user_roles e') "alice" = Some ({[ "Approver" ]} ∖ {[ "Approver" ]})
    ∧ (∀ u, u ≠ "alice" → dict_get (user_roles e') u = dict_get (user_roles example_engine) u)
    ∧ role_tables w' = role_tables example_world
    ∧ (∀ u p, has_permission e' w' u p = true →
              has_permission example_engine example_world u p = true).
Proof.
  apply (remove_role_held example_engine example_world "alice" "Approver" {[ "Approver" ]}).
  - vm_compute. reflexivity.
  - apply elem_of_singleton. reflexivity.
Defined.

Lemma get_user_permissions_ext e e' w w' user_id :
  roles_of e' w' = roles_of e w →
  default ∅ (dict_get (user_roles e') user_id) = default ∅ (dict_get (user_roles e) user_id) →
  get_user_permissions e' w' user_id = get_user_permissions e w user_id.
Proof. unfold get_user_permissions. by intros -> ->. Qed.

(** X10. Assigning a role the user did not hold and removing it again gives
    every user the permissions from before the two calls. *)
Theorem assign_then_remove_restores_permissions
    (e : RBACEngine) (w : World) (user_id role_name : string) :
  dict_contains (roles_of e w) role_name = true →
  role_name ∉ default ∅ (dict_get (user_roles e) user_id) →
  ∃ e2 w2,
    (assign_role_to_user user_id role_name ;;;
     remove_role_from_user user_id role_name) (e, w) = (Ret tt, (e2, w2))
    ∧ ∀ u, get_user_permissions e2 w2 u = get_user_permissions e w u.
Proof.
  intros Hrole Hnot. unfold bind at 1.
  rewrite assign_role_to_user_runs by done.
  erewrite remove_role_from_user_runs.
  2: { cbn [set_user_roles user_roles]. apply dict_get_set_eq. }
  2: { set_solver. }
  eexists _, _. split; [reflexivity|].
  intros u. apply get_user_permissions_ext; [reflexivity|].
  cbn [set_user_roles user_roles]. rewrite dict_set_set.
  destruct (decide (user_id = u)) as [<-|Hne].
  - rewrite dict_get_set_eq. cbn [default from_option]. set_solver.
  - by rewrite dict_get_set_ne.
Qed.

(** "bob" was a developer for a moment. *)
Lemma assign_then_remove_restores_permissions_witness :
  ∃ e2 w2,
    (assign_role_to_user "bob" "Developer" ;;;
     remove_role_from_user "bob" "Developer") (example_engine, example_world)
    = (Ret tt, (e2, w2))
    ∧ ∀ u, get_user_permissions e2 w2 u = get_user_permissions example_engine example_world u.
Proof.
  apply (assign_then_remove_restores_permissions example_engine example_world
           "bob" "Developer").
  - vm_compute. reflexivity.
  - apply (bool_decide_unpack _). vm_compute. exact I.
Defined.

(** X11. A user has a permission exactly when one of the role names
    assigned to the user is in the engine's role table with that
    permission. A user without an entry, and an assigned name that is not
    in the table, contribute nothing; which role grants the permission
    plays no part. *)
Theorem permission_comes_from_an_assigned_role
    (e : RBACEngine) (w : World) (user_id permission : string) :
  has_permission e w user_id permission = true
  ↔ ∃ role_name role,
      role_name ∈ default ∅ (dict_get (user_roles e) user_id)
      ∧ dict_get (roles_of e w) role_name = Some role
      ∧ permission ∈ permissions role.
Proof. apply has_permission_spec. Qed.

Lemma find_unhashable_strs (l : list string) :
  find (fun x => negb (hashable x)) (map JStr l) = None.
Proof. induction l as [|x l IH]; [done|]. simpl. exact IH. Qed.

Lemma as_str_set_strs (l : list string) : as_str_set (map JStr l) = Some (list_to_set l).
Proof.
  unfold as_str_set. assert (mapM as_str (map JStr l) = Some l) as ->; [|done].
  induction l as [|x l IH]; [done|]. simpl. by rewrite IH.
Qed.

(** What [save_state] writes for an assignment table. *)
Lemma as_user_roles_saved (ur : pydict (gset string)) :
  as_user_roles (map (fun '(user_id, rs) => (user_id, map JStr (elements rs))) ur) = Some ur.
Proof.
  unfold as_user_roles. induction ur as [|[u rs] ur IH]; [done|].
  cbn [map]. simpl. rewrite IH, as_str_set_strs. simpl.
  by rewrite list_to_set_elements_L.
Qed.

(** [save_state] lays the assignments down as lists of names. *)
Lemma load_saved_items {O} (ur : pydict (gset string)) (acc : pydict (list json)) (s : O) :
  NoDup (dict_keys acc ++ dict_keys ur) →
  for_each
    (fun (acc : pydict (list json)) '(user_id, rs) =>
       s0 <- py_set rs ;; ret (dict_set acc user_id s0))
    (map (fun '(user_id, rs) => (user_id, JList (map JStr (elements rs)))) ur) acc s
  = (Ret (acc ++ map (fun '(user_id, rs) => (user_id, map JStr (elements rs))) ur)%list, s).
Proof.
  revert acc. induction ur as [|[u rs] ur IH]; intros acc Hnd.
  - simpl. by rewrite app_nil_r.
  - cbn [map for_each]. unfold bind at 1. unfold py_set. run_py.
    rewrite find_unhashable_strs.
    assert (dict_get acc u = None) as Hfresh.
    { apply dict_get_not_key. apply NoDup_app in Hnd as (_ & Hdisj & _).
      intros Hin. apply (Hdisj u Hin). simpl. left. }
    rewrite (dict_set_absent _ _ _ Hfresh), IH.
    + by rewrite <- app_assoc.
    + unfold dict_keys in *. rewrite map_app. simpl. by rewrite <- app_assoc.
Qed.

(** X12. [save_state] followed by [load_state] on the same path restores
    the assignments: whatever engine loads the file, its mapping becomes
    the one that was saved, and what it held before is dropped, not merged. *)
Theorem save_then_load_state (e e0 : RBACEngine) (w : World) (file_path : string) :
  NoDup (dict_keys (user_roles e)) →
  ∃ w1 w2,
    save_state file_path (e, w) = (Ret tt, (e, w1))
    ∧ load_state file_path (e0, w1)
      = (Ret tt, (set_user_roles (fun _ => user_roles e) e0, w2)).
Proof.
  intros Hnd. eexists _, _. split.
  - unfold save_state. run_py. reflexivity.
  - unfold load_state, try_except, json_load, py_get, py_items. run_py.
    cbn [files set_files set_log]. rewrite lookup_insert_eq. cbv beta iota.
    cbn [dict_get]. rewrite bool_decide_true by done.
    cbv beta iota delta [default from_option Datatypes.id dict_items].
    match goal with |- context [for_each ?f ?xs ?acc ?s] =>
      rewrite (load_saved_items (user_roles e) [] s Hnd : for_each f xs acc s = _) end.
    cbn [app]. rewrite as_user_roles_saved. reflexivity.
Qed.

(** The assignments of [example_engine], loaded into a fresh engine. *)
Lemma save_then_load_state_witness :
  ∃ w1 w2,
    save_state "rbac_state.json" (example_engine, example_world)
    = (Ret tt, (example_engine, w1))
    ∧ load_state "rbac_state.json" (RBACEngine_init None example_world, w1)
      = (Ret tt, (set_user_roles (fun _ => user_roles example_engine)
                                 (RBACEngine_init None example_world), w2)).
Proof.
  apply (save_then_load_state example_engine (RBACEngine_init None example_world)
           example_world "rbac_state.json").
  apply (bool_decide_unpack _). vm_compute. exact I.
Defined.

(** X13. [load_state] on a path where no file is returns normally with a
    warning in the log. The assignments the engine held are kept as they
    are; they are not emptied. *)
Theorem load_state_missing_file (e : RBACEngine) (w : World) (file_path : string) :
  files w !! file_path = None →
  load_state file_path (e, w)
  = (Ret tt,
     (e, set_log (fun l => (l ++ [(WARNING, ("RBAC state file not found at " ++ file_path
                                             ++ ". Starting with empty state.")%string)])%list)
                 w)).
Proof.
  intros Hfile. unfold load_state, try_except, json_load. run_py. by rewrite Hfile.
Qed.

(** [example_world] has no files. *)
Lemma load_state_missing_file_witness :
  load_state "rbac_state.json" (example_engine, example_world)
  = (Ret tt,
     (example_engine,
      set_log (fun l => (l ++ [(WARNING, ("RBAC state file not found at " ++ "rbac_state.json"
                                          ++ ". Starting with empty state.")%string)])%list)
              example_world)).
Proof.
  apply (load_state_missing_file example_engine example_world "rbac_state.json").
  vm_compute. reflexivity.
Defined.

(** X14. [load_state] installs a mapping in full or not at all. Whatever
    the file holds, after the call the engine is either the one from before
    or the one from before with its whole mapping replaced by a mapping read
    from the file, and then the call returned normally and logged the
    load. *)
Theorem load_state_all_or_nothing (e : RBACEngine) (w : World) (file_path : string) :
  fst (snd (load_state file_path (e, w))) = e
  ∨ ∃ v typed,
      files w !! file_path = Some (Json v)
      ∧ load_state file_path (e, w)
      = (Ret tt,
         (set_user_roles (fun _ => typed) e,
          set_log (fun l => (l ++ [(INFO, ("RBAC state loaded from " ++ file_path)%string)])%list)
                  w)).
Proof.
  unfold load_state, try_except, json_load. run_py.
  destruct (files w !! file_path) as [[v|err|err]|] eqn:Hfile; [|by left..].
  unfold py_get, py_items. run_py.
  destruct v as [| | | | |d]; try by left.
  destruct (default (JDict []) (dict_get d "user_roles")) as [| | | | |ur]; try by left.
  cbv beta iota.
  match goal with |- context [for_each ?f ?xs ?acc ?s] =>
    pose proof (for_each_keeps_state f xs acc s
                  (fun a x s0 => py_set_step_keeps_state a x s0)) as Hkeep;
    destruct (for_each f xs acc s) as [[raw|ex|] s'] end; simpl in Hkeep; subst s'.
  - destruct (as_user_roles raw) as [typed|]; [right|left]; [by exists (JDict d), typed|done].
  - left. by destruct (bool_decide _); [destruct (exn_cls ex)|].
  - by left.
Qed.

(** X15. A method behind [requires_permission], on an object that has an
    engine and a current user: when the user holds the permission the call
    is the call of the method itself; when not, the method is not run, the
    attempt is logged as a warning and [PermissionError] is raised. *)
Theorem requires_permission_gate {O A : Type}
    (get_rbac_engine : O → option RBACEngine) (get_current_user_id : O → option string)
    (permission func_name : string) (func : Method O A)
    (o : O) (w : World) (engine : RBACEngine) (user_id : string) :
  get_rbac_engine o = Some engine →
  get_current_user_id o = Some user_id →
  requires_permission get_rbac_engine get_current_user_id permission func_name func (o, w)
  = if has_permission engine w user_id permission then func (o, w)
    else (Raise (Exn PermissionError
                   ("You do not have the required permission: " ++ permission)),
          (o, set_log (fun l => (l ++ [(WARNING,
                 ("User '" ++ user_id ++ "' attempted to perform action '" ++ func_name
                  ++ "' without permission '" ++ permission ++ "'.")%string)])%list) w)).
Proof.
  intros He Hu. unfold requires_permission. run_py. rewrite He, Hu.
  by destruct (has_permission engine w user_id permission).
Qed.

(** "bob", who has no role, at a gate for the approve permission. *)
Lemma requires_permission_gate_witness :
  requires_permission gate_get_engine gate_get_user Permission.APPROVE_CHANGES
                      "apply_change" gated_action ((example_engine, "bob"), example_world)
  = if has_permission example_engine example_world "bob" Permission.APPROVE_CHANGES
    then gated_action ((example_engine, "bob"), example_world)
    else (Raise (Exn PermissionError
                   ("You do not have the required permission: "
                    ++ Permission.APPROVE_CHANGES)),
          ((example_engine, "bob"),
           set_log (fun l => (l ++ [(WARNING,
                  ("User '" ++ "bob" ++ "' attempted to perform action '" ++ "apply_change"
                   ++ "' without permission '" ++ Permission.APPROVE_CHANGES
                   ++ "'.")%string)])%list) example_world)).
Proof.
  apply (requires_permission_gate gate_get_engine gate_get_user Permission.APPROVE_CHANGES
           "apply_change" gated_action (example_engine, "bob") example_world
           example_engine "bob"); reflexivity.
Defined.

(** ** More on the approval workflow *)

(** Everything a successful [approve_request] leaves behind. *)
Lemma approve_request_effects wf w request_id r approver comment :
  dict_get (requests wf) request_id = Some r →
  has_permission (rbac_engine wf) w approver Permission.APPROVE_CHANGES = true →
  ∃ w',
    let now := clock_tape w (clock_pos w) in
    let rs' := dict_set (requests wf) request_id (approved_by approver now comment r) in
    approve_request request_id approver comment (wf, w)
    = (Ret tt, (set_requests (fun _ => rs') wf, w'))
    ∧ files w' = <[storage_file wf := Json (ledger_json rs')]> (files w)
    ∧ role_tables w' = role_tables w
    ∧ audit_trail w'
      = (audit_trail w ++
         [audit_entry (clock_tape w (S (clock_pos w))) INFRA_CHANGE_APPROVED approver
            (Some request_id) (JDict [("comment", json_of_option_str comment)])])%list
    ∧ console w'
      = (console w ++
         [Line ("[green]Approval request '" ++ request_id ++ "' approved.[/green]")])%list.
Proof.
  intros Hget Hperm.
  assert (dict_contains (requests wf) request_id = true) as Hin
    by (apply dict_contains_get; eauto).
  unfold approve_request. run_py.
  rewrite Hin. cbv beta iota delta [negb]. rewrite Hperm. simpl.
  destruct wf as [eng file rs].
  unfold set_requests; cbn [requests rbac_engine storage_file] in *.
  rewrite Hget, !dict_get_set_eq, !dict_set_set.
  unfold approved_by, ledger_json, dict_items.
  destruct comment as [c|]; [destruct (bool_decide (c = ""))|];
    unfold set_requests; cbn [requests rbac_engine storage_file];
    rewrite ?dict_get_set_eq, ?dict_set_set;
    (eexists; split; [reflexivity|repeat split; reflexivity]).
Qed.

(** The other way [approve_request] can end for an id that is not there. *)
Lemma approve_request_not_found wf w request_id approver comment :
  dict_get (requests wf) request_id = None →
  approve_request request_id approver comment (wf, w)
  = (Raise (Exn ValueError "Approval request not found."), (wf, w)).
Proof.
  intros Hget. unfold approve_request. run_py.
  unfold dict_contains. by rewrite Hget.
Qed.

Lemma dict_get_Some_elem {V} (d : pydict V) k v : dict_get d k = Some v → (k, v) ∈ d.
Proof.
  induction d as [|[k0 v0] d IH]; simpl; [done|].
  destruct (bool_decide (k0 = k)) eqn:E.
  - apply bool_decide_eq_true in E as ->. intros [= ->]. left.
  - intros H. right. by apply IH.
Qed.

Lemma dict_set_elem {V} (d : pydict V) k v k' v' :
  (k', v') ∈ dict_set d k v → (k', v') = (k, v) ∨ (k', v') ∈ d.
Proof.
  induction d as [|[k0 v0] d IH]; simpl.
  - intros H. apply list_elem_of_singleton in H. by left.
  - destruct (bool_decide (k0 = k)).
    + intros H. apply elem_of_cons in H as [H|H]; [by left|]. right. by right.
    + intros H. apply elem_of_cons in H as [H|H].
      * right. rewrite H. left.
      * destruct (IH H) as [?|?]; [by left|]. right. by right.
Qed.

Lemma dict_keys_set {V} (d : pydict V) k v :
  dict_keys (dict_set d k v)
  = if dict_contains d k then dict_keys d else (dict_keys d ++ [k])%list.
Proof.
  unfold dict_contains. destruct (dict_get d k) as [v0|] eqn:E.
  - apply dict_keys_set_present. eauto.
  - rewrite (dict_set_absent _ _ _ E). unfold dict_keys. by rewrite map_app.
Qed.

Lemma dict_get_None_not_key {V} (d : pydict V) k : dict_get d k = None → k ∉ dict_keys d.
Proof.
  induction d as [|[k0 v0] d IH]; simpl; [intros _; apply not_elem_of_nil|].
  destruct (bool_decide (k0 = k)) eqn:E; [done|].
  apply bool_decide_eq_false in E. intros H. apply not_elem_of_cons. split; [done|].
  by apply IH.
Qed.

(** Storing a record under its own id keeps a ledger well keyed. *)
Lemma well_keyed_set rs k r : well_keyed rs → id r = k → well_keyed (dict_set rs k r).
Proof.
  intros [Hnd Hids] Hid. split.
  - rewrite dict_keys_set. unfold dict_contains.
    destruct (dict_get rs k) eqn:E; [done|].
    apply NoDup_app. split; [done|]. split; [|apply NoDup_singleton].
    intros x Hx Hx'. apply list_elem_of_singleton in Hx' as ->.
    by apply (dict_get_None_not_key rs k).
  - intros k' r' Hin. apply dict_set_elem in Hin as [[= -> ->]|Hin]; [done|].
    by apply Hids.
Qed.

(** X16. [approve_request] for an id that is not in the ledger raises
    [ValueError] before the permission is looked at: the outcome is the same
    for an approver and for a caller without any role, and nothing is
    changed. *)
Theorem approve_request_unknown_id
    (wf : ApprovalWorkflow) (w : World) (request_id approver : string)
    (comment : option string) :
  dict_get (requests wf) request_id = None →
  approve_request request_id approver comment (wf, w)
  = (Raise (Exn ValueError "Approval request not found."), (wf, w)).
Proof. apply approve_request_not_found. Qed.

(** An id nobody issued, asked for by the approver "alice". *)
Lemma approve_request_unknown_id_witness :
  approve_request "no-such-id" "alice" None (fst pending_state, snd pending_state)
  = (Raise (Exn ValueError "Approval request not found."),
     (fst pending_state, snd pending_state)).
Proof.
  apply (approve_request_unknown_id (fst pending_state) (snd pending_state)
           "no-such-id" "alice" None).
  vm_compute. reflexivity.
Defined.

Lemma pending_state_well_keyed : well_keyed (requests (fst pending_state)).
Proof.
  split.
  - apply (bool_decide_unpack _). vm_compute. exact I.
  - intros k r Hin. vm_compute in Hin.
    repeat (apply elem_of_cons in Hin as [Hin|Hin];
            [injection Hin as -> ->; reflexivity|]).
    by apply elem_of_nil in Hin.
Defined.

(** X17. On a ledger that holds every record once and under its own id, a
    successful [approve_request] touches one record only, and of that
    record only status, approver, update time and comments: the id, the
    requester, the summary, the details, the approver role and the creation
    time are kept, the old comments are kept in front of the new one, every
    other record and the order of the ledger are as before, and the
    workflow keeps its engine and its storage file. *)
Theorem approve_request_frame
    (wf : ApprovalWorkflow) (w : World) (request_id approver : string)
    (comment : option string) (R : ApprovalRequest) :
  well_keyed (requests wf) →
  dict_get (requests wf) request_id = Some R →
  has_permission (rbac_engine wf) w approver Permission.APPROVE_CHANGES = true →
  ∃ wf' w' R',
    approve_request request_id approver comment (wf, w) = (Ret tt, (wf', w'))
    ∧ dict_get (requests wf') request_id = Some R'
    ∧ same_proposal R R'
    ∧ comments R `prefix_of` comments R'
    ∧ dict_keys (requests wf') = dict_keys (requests wf)
    ∧ (∀ k, k ≠ request_id → dict_get (requests wf') k = dict_get (requests wf) k)
    ∧ rbac_engine wf' = rbac_engine wf
    ∧ storage_file wf' = storage_file wf.
Proof.
  intros _ Hget Hperm.
  destruct (approve_request_effects wf w request_id R approver comment Hget Hperm)
    as (w' & Hrun & _).
  eexists _, w', _. split; [exact Hrun|].
  cbn [set_requests requests rbac_engine storage_file]. split; [apply dict_get_set_eq|].
  split; [|split; [|split; [|split; [|done]]]].
  - unfold same_proposal, approved_by.
    destruct comment as [c|]; [destruct (bool_decide (c = ""))|]; by repeat split.
  - unfold approved_by.
    destruct comment as [c|]; [destruct (bool_decide (c = ""))|]; simpl;
      try done. by apply prefix_app_r.
  - apply dict_keys_set_present. eauto.
  - intros k Hk. by apply dict_get_set_ne.
Qed.

(** "alice" approving the request of [pending_state] with a comment. *)
Lemma approve_request_frame_witness :
  ∃ wf' w' R',
    approve_request (id example_request) "alice" (Some "looks good")
                    (fst pending_state, snd pending_state) = (Ret tt, (wf', w'))
    ∧ dict_get (requests wf') (id example_request) = Some R'
    ∧ same_proposal example_request R'
    ∧ comments example_request `prefix_of` comments R'
    ∧ dict_keys (requests wf') = dict_keys (requests (fst pending_state))
    ∧ (∀ k, k ≠ id example_request →
            dict_get (requests wf') k = dict_get (requests (fst pending_state)) k)
    ∧ rbac_engine wf' = rbac_engine (fst pending_state)
    ∧ storage_file wf' = storage_file (fst pending_state).
Proof.
  apply (approve_request_frame (fst pending_state) (snd pending_state)
           (id example_request) "alice" (Some "looks good") example_request).
  - exact pending_state_well_keyed.
  - vm_compute. reflexivity.
  - vm_compute. reflexivity.
Defined.

(** X18. A successful [approve_request] is written through: when it
    returns, the storage file holds the serialization of the ledger as it
    now is in memory, no other file was touched, and the audit trail has
    grown by exactly one entry, tagged "infra.change.approved", whose actor
    is the approver and whose target is the request. *)
Theorem approve_request_write_through
    (wf : ApprovalWorkflow) (w : World) (request_id approver : string)
    (comment : option string) (R : ApprovalRequest) :
  dict_get (requests wf) request_id = Some R →
  has_permission (rbac_engine wf) w approver Permission.APPROVE_CHANGES = true →
  ∃ wf' w',
    approve_request request_id approver comment (wf, w) = (Ret tt, (wf', w'))
    ∧ files w' !! storage_file wf = Some (Json (ledger_json (requests wf')))
    ∧ (∀ path, path ≠ storage_file wf → files w' !! path = files w !! path)
    ∧ audit_trail w'
      = (audit_trail w ++
         [audit_entry (clock_tape w (S (clock_pos w))) INFRA_CHANGE_APPROVED approver
            (Some request_id) (JDict [("comment", json_of_option_str comment)])])%list.
Proof.
  intros Hget Hperm.
  destruct (approve_request_effects wf w request_id R approver comment Hget Hperm)
    as (w' & Hrun & Hfiles & _ & Haudit & _).
  eexists _, w'. split; [exact Hrun|].
  cbn [set_requests requests]. rewrite Hfiles. repeat split.
  - apply lookup_insert_eq.
  - intros path Hpath. by apply lookup_insert_ne.
  - exact Haudit.
Qed.

(** "alice" approving the request of [pending_state]. *)
Lemma approve_request_write_through_witness :
  ∃ wf' w',
    approve_request (id example_request) "alice" None
                    (fst pending_state, snd pending_state) = (Ret tt, (wf', w'))
    ∧ files w' !! storage_file (fst pending_state)
      = Some (Json (ledger_json (requests wf')))
    ∧ (∀ path, path ≠ storage_file (fst pending_state) →
               files w' !! path = files (snd pending_state) !! path)
    ∧ audit_trail w'
      = (audit_trail (snd pending_state) ++
         [audit_entry (clock_tape (snd pending_state) (S (clock_pos (snd pending_state))))
            INFRA_CHANGE_APPROVED "alice" (Some (id example_request))
            (JDict [("comment", json_of_option_str None)])])%list.
Proof.
  apply (approve_request_write_through (fst pending_state) (snd pending_state)
           (id example_request) "alice" None example_request);
    vm_compute; reflexivity.
Defined.

(** X19. [create_request] of a request whose id is not yet in the ledger
    puts it last: the ledger is the old one followed by the new record, and
    the pending requests are the old ones followed by the new request if it
    is pending, so that the next listing shows it once, at the end. *)
Theorem create_request_fresh_id
    (wf : ApprovalWorkflow) (w : World) (request : ApprovalRequest) :
  dict_get (requests wf) (id request) = None →
  ∃ wf' w',
    create_request request (wf, w) = (Ret tt, (wf', w'))
    ∧ requests wf' = (requests wf ++ [(id request, request)])%list
    ∧ pending_requests wf'
      = (pending_requests wf
         ++ if decide (status request = PENDING) then [request] else [])%list.
Proof.
  intros Hfresh.
  destruct (create_request_runs wf w request) as (w' & Hrun & _).
  eexists _, w'. split; [exact Hrun|].
  cbn [set_requests requests]. rewrite (dict_set_absent _ _ _ Hfresh).
  split; [done|]. unfold pending_requests, dict_values.
  cbn [set_requests requests]. by rewrite map_app, filter_app.
Qed.

(** A request of "dave" on the ledger of [pending_state]. *)
Lemma create_request_fresh_id_witness :
  ∃ wf' w',
    create_request (returned no_request second_made_out)
                   (fst pending_state, snd pending_state) = (Ret tt, (wf', w'))
    ∧ requests wf'
      = (requests (fst pending_state)
         ++ [(id (returned no_request second_made_out),
              returned no_request second_made_out)])%list
    ∧ pending_requests wf'
      = (pending_requests (fst pending_state)
         ++ if decide (status (returned no_request second_made_out) = PENDING)
            then [returned no_request second_made_out] else [])%list.
Proof.
  apply (create_request_fresh_id (fst pending_state) (snd pending_state)
           (returned no_request second_made_out)).
  vm_compute. reflexivity.
Defined.

(** X20. A [create_request] that returns normally is written through: the
    request is stored under its id, the storage file holds the
    serialization of the ledger as it now is in memory, no other file was
    touched, and the audit trail has grown by exactly one entry, tagged
    "infra.change.requested", whose actor is the requester and whose details
    are the summary (an empty object when the summary is empty). *)
Theorem create_request_write_through
    (wf wf' : ApprovalWorkflow) (w w' : World) (request : ApprovalRequest) :
  create_request request (wf, w) = (Ret tt, (wf', w')) →
  dict_get (requests wf') (id request) = Some request
  ∧ files w' !! storage_file wf = Some (Json (ledger_json (requests wf')))
  ∧ (∀ path, path ≠ storage_file wf → files w' !! path = files w !! path)
  ∧ audit_trail w'
    = (audit_trail w ++
       [audit_entry (clock_tape w (clock_pos w)) INFRA_CHANGE_REQUESTED
          (requester_id request) (Some (id request))
          (if bool_decide (change_summary request = "") then JDict []
           else JStr (change_summary request))])%list.
Proof.
  destruct (create_request_runs wf w request) as (w0 & -> & Hfiles & Haudit).
  intros [= <- <-].
  cbn [set_requests requests]. rewrite Hfiles. repeat split.
  - apply dict_get_set_eq.
  - apply lookup_insert_eq.
  - intros path Hpath. by apply lookup_insert_ne.
  - exact Haudit.
Qed.

(** The call that made [pending_state]. *)
Lemma create_request_write_through_witness :
  dict_get (requests (fst pending_state)) (id example_request) = Some example_request
  ∧ files (snd pending_state)
      !! storage_file (mkWorkflow example_engine "approvals.json" [])
    = Some (Json (ledger_json (requests (fst pending_state))))
  ∧ (∀ path, path ≠ storage_file (mkWorkflow example_engine "approvals.json" []) →
             files (snd pending_state) !! path
             = files (snd (snd example_request_out)) !! path)
  ∧ audit_trail (snd pending_state)
    = (audit_trail (snd (snd example_request_out)) ++
       [audit_entry (clock_tape (snd (snd example_request_out))
                       (clock_pos (snd (snd example_request_out))))
          INFRA_CHANGE_REQUESTED (requester_id example_request) (Some (id example_request))
          (if bool_decide (change_summary example_request = "") then JDict []
           else JStr (change_summary example_request))])%list.
Proof.
  apply (create_request_write_through
           (mkWorkflow example_engine "approvals.json" []) (fst pending_state)
           (snd (snd example_request_out)) (snd pending_state) example_request).
  vm_compute. reflexivity.
Defined.

(** ** More on the persistence of the ledger *)

Lemma load_requests_no_store {O} (storage_file : string) (o : O) (w : World) :
  (∀ v, files w !! storage_file ≠ Some (Json v)) →
  _load_requests storage_file (o, w)
  = match files w !! storage_file with
    | Some (Undecodable err) => (Raise (Exn UnicodeDecodeError err), (o, w))
    | _ => (Ret [], (o, w))
    end.
Proof.
  intros Hfile. unfold _load_requests, try_except, json_load. run_py.
  destruct (files w !! storage_file) as [[v|err|err]|]; [|done..].
  by destruct (Hfile v).
Qed.

(** X21. [_load_requests] on a path where the file does not hold JSON. When
    no file is there, and when the file is text that is not JSON, it gives
    the empty ledger, raises nothing and leaves no trace in the world, not
    even in the log. When the file is bytes that are not text,
    [UnicodeDecodeError] leaves the call, for neither handler takes it, and
    the world is as before. *)
Theorem load_requests_without_usable_store {O : Type}
    (storage_file : string) (o : O) (w : World) :
  (∀ v, files w !! storage_file ≠ Some (Json v)) →
  _load_requests storage_file (o, w)
  = match files w !! storage_file with
    | Some (Undecodable err) => (Raise (Exn UnicodeDecodeError err), (o, w))
    | _ => (Ret [], (o, w))
    end.
Proof. apply load_requests_no_store. Qed.

(** The ledger file of [garbled_ledger_world], text that is not JSON. *)
Lemma load_requests_without_usable_store_witness :
  _load_requests "approvals.json" (tt, garbled_ledger_world)
  = match files garbled_ledger_world !! "approvals.json" with
    | Some (Undecodable err) => (Raise (Exn UnicodeDecodeError err), (tt, garbled_ledger_world))
    | _ => (Ret [], (tt, garbled_ledger_world))
    end.
Proof.
  apply (load_requests_without_usable_store "approvals.json" tt garbled_ledger_world).
  intros v. vm_compute. intros H. discriminate H.
Defined.

(** X22. A workflow constructed on a ledger file that is text and not JSON
    starts with an empty ledger, and the first [create_request] that
    returns normally has replaced the file: it then holds the new request
    and nothing of what was there. *)
Theorem unparsable_store_is_overwritten
    (engine : RBACEngine) (path err : string) (w w' : World)
    (request : ApprovalRequest) (wf' : ApprovalWorkflow) :
  files w !! path = Some (Garbled err) →
  create_request request (mkWorkflow engine path [], w) = (Ret tt, (wf', w')) →
  ApprovalWorkflow_init engine path (tt, w) = (Ret (mkWorkflow engine path []), (tt, w))
  ∧ files w' !! path = Some (Json (ledger_json [(id request, request)])).
Proof.
  intros Hfile Hcreate. split.
  - unfold ApprovalWorkflow_init. unfold bind.
    rewrite load_requests_no_store, Hfile; [reflexivity|].
    intros v. by rewrite Hfile.
  - destruct (create_request_runs (mkWorkflow engine path []) w request)
      as (w0 & Hrun & Hfiles & _).
    rewrite Hrun in Hcreate. injection Hcreate as _ <-.
    rewrite Hfiles. cbn [storage_file requests dict_set]. apply lookup_insert_eq.
Qed.

(** [example_request] submitted to a workflow on [garbled_ledger_world]. *)
Lemma unparsable_store_is_overwritten_witness :
  ApprovalWorkflow_init example_engine "approvals.json" (tt, garbled_ledger_world)
  = (Ret (mkWorkflow example_engine "approvals.json" []), (tt, garbled_ledger_world))
  ∧ files (snd (snd (create_request example_request
                       (mkWorkflow example_engine "approvals.json" [],
                        garbled_ledger_world))))
      !! "approvals.json"
    = Some (Json (ledger_json [(id example_request, example_request)])).
Proof.
  apply (unparsable_store_is_overwritten example_engine "approvals.json"
           "Extra data: line 1 column 3 (char 2)" garbled_ledger_world
           (snd (snd (create_request example_request
                        (mkWorkflow example_engine "approvals.json" [],
                         garbled_ledger_world))))
           example_request
           (fst (snd (create_request example_request
                        (mkWorkflow example_engine "approvals.json" [],
                         garbled_ledger_world))))).
  - vm_compute. reflexivity.
  - vm_compute. reflexivity.
Defined.

(** What [load_record] returns, when it returns. *)
Lemma load_record_returns {O} (acc acc' : pydict ApprovalRequest) (k : string) (v : json)
    (s s' : O * World) :
  load_record acc (k, v) s = (Ret acc', s') →
  ∃ r, acc' = dict_set acc k r ∧ id r = k ∧ fresh_from_load r.
Proof.
  unfold load_record, ApprovalRequest_init, typed_str. run_py.
  destruct (py_subscript v "requester_id" s) as [[v1| |] s1]; try done.
  destruct (py_subscript v "change_summary" s1) as [[v2| |] s2]; try done.
  destruct (py_subscript v "change_details" s2) as [[v3| |] s3]; try done.
  destruct (as_str v1) as [a1|]; try done.
  destruct (as_str v2) as [a2|]; try done.
  cbv beta iota.
  destruct (py_subscript v "status" _) as [[v4| |] s4]; try done.
  destruct (ApprovalStatus_of_value v4 s4) as [[st| |] s5]; try done.
  intros [= <- _]. eexists. split; [reflexivity|]. by repeat split.
Qed.

(** The loop of [_load_requests] keeps a ledger well keyed and made of
    records the constructor shaped. *)
Lemma load_records_shape {O} (items : list (string * json))
    (acc rs : pydict ApprovalRequest) (s s' : O * World) :
  well_keyed acc → (∀ k r, (k, r) ∈ acc → fresh_from_load r) →
  for_each load_record items acc s = (Ret rs, s') →
  well_keyed rs ∧ ∀ k r, (k, r) ∈ rs → fresh_from_load r.
Proof.
  revert acc s. induction items as [|[k v] items IH]; intros acc s Hwk Hfresh.
  - simpl. unfold ret. by intros [= <- _].
  - cbn [for_each]. unfold bind at 1.
    destruct (load_record acc (k, v) s) as [[acc'| |] s1] eqn:Hstep; try done.
    apply load_record_returns in Hstep as (r & -> & Hid & Hr).
    apply IH.
    + by apply well_keyed_set.
    + intros k' r' Hin. apply dict_set_elem in Hin as [[= -> ->]|Hin]; [done|].
      by apply (Hfresh k').
Qed.

(** X23. Whatever the ledger file holds, when [_load_requests] returns a
    ledger, every record in it is stored once and under its own id (the key
    of the file; the id inside the stored record is not read), and role,
    approver, comments and update time are the constructor's: the role is
    "Approver", there is no approver, there are no comments, and the update
    time is the creation time. *)
Theorem loaded_ledger_shape {O : Type}
    (storage_file : string) (o : O) (w : World)
    (rs : pydict ApprovalRequest) (s' : O * World) :
  _load_requests storage_file (o, w) = (Ret rs, s') →
  well_keyed rs ∧ ∀ k r, (k, r) ∈ rs → fresh_from_load r.
Proof.
  assert (well_keyed [] ∧ ∀ k r, (k, r) ∈ ([] : pydict ApprovalRequest) → fresh_from_load r)
    as Hnil.
  { split; [split; [constructor|]|]; intros k r H; by apply elem_of_nil in H. }
  unfold _load_requests, try_except, json_load, py_items. run_py.
  destruct (files w !! storage_file) as [[v|err|err]|].
  - destruct v as [| | | | |d]; try done.
    cbv beta iota. unfold dict_items.
    destruct (for_each load_record d [] (o, w)) as [[rs'|ex|] s1] eqn:Hloop; try done.
    + intros [= <- _]. destruct Hnil as [Hwk Hfr].
      by apply (load_records_shape d [] rs' (o, w) s1).
    + destruct (bool_decide _); [by intros [= <- _]|done].
  - simpl. by intros [= <- _].
  - simpl. done.
  - simpl. by intros [= <- _].
Qed.

(** The ledger that a fresh workflow loads from the store of
    [approved_state]. *)
Lemma loaded_ledger_shape_witness :
  well_keyed (requests (returned no_workflow reloaded_approved))
  ∧ ∀ k r, (k, r) ∈ requests (returned no_workflow reloaded_approved) → fresh_from_load r.
Proof.
  apply (loaded_ledger_shape "approvals.json" tt (snd approved_state)
           (requests (returned no_workflow reloaded_approved))
           (tt, set_clock_pos S (set_uuid_pos S (snd approved_state)))).
  vm_compute. reflexivity.
Defined.

(** X24. The round trip of the ledger through its file. For a ledger in
    which every record is stored once and under its own id, a fresh
    workflow constructed right after [_save_requests] lists pending requests
    with the same ids, requesters and summaries, in the same order. (Their
    creation times are not among what comes back.) *)
Theorem save_then_reload_pending (wf : ApprovalWorkflow) (w : World) (engine : RBACEngine) :
  well_keyed (requests wf) →
  ∃ wf2 w2,
    ApprovalWorkflow_init engine (storage_file wf) (tt, snd (snd (_save_requests (wf, w))))
    = (Ret wf2, (tt, w2))
    ∧ map id (pending_requests wf2) = map id (pending_requests wf)
    ∧ map requester_id (pending_requests wf2) = map requester_id (pending_requests wf)
    ∧ map change_summary (pending_requests wf2) = map change_summary (pending_requests wf).
Proof.
  intros [Hnd Hids].
  destruct (load_after_save wf w Hnd) as (rs' & w2 & Hload & Hall & _).
  exists (mkWorkflow engine (storage_file wf) rs'), w2. split.
  - unfold ApprovalWorkflow_init. unfold bind. by rewrite Hload.
  - by apply reload_keeps_pending.
Qed.

(** The ledger of [swapped_state], saved and loaded again. *)
Lemma save_then_reload_pending_witness :
  ∃ wf2 w2,
    ApprovalWorkflow_init example_engine (storage_file (fst swapped_state))
      (tt, snd (snd (_save_requests (fst swapped_state, snd swapped_state))))
    = (Ret wf2, (tt, w2))
    ∧ map id (pending_requests wf2) = map id (pending_requests (fst swapped_state))
    ∧ map requester_id (pending_requests wf2)
      = map requester_id (pending_requests (fst swapped_state))
    ∧ map change_summary (pending_requests wf2)
      = map change_summary (pending_requests (fst swapped_state)).
Proof.
  apply (save_then_reload_pending (fst swapped_state) (snd swapped_state) example_engine).
  split.
  - apply (bool_decide_unpack _). vm_compute. exact I.
  - intros k r Hin. vm_compute in Hin.
    repeat (apply elem_of_cons in Hin as [Hin|Hin];
            [injection Hin as -> ->; reflexivity|]).
    by apply elem_of_nil in Hin.
Defined.

(** ** What every public operation keeps *)

Lemma list_pending_requests_runs wf w :
  ∃ item,
    list_pending_requests (wf, w)
    = (Ret tt, (wf, set_console (fun c => (c ++ [item])%list) w)).
Proof.
  unfold list_pending_requests. run_py.
  destruct (pending_requests wf); eexists; reflexivity.
Qed.

(** Everything [create_request] leaves behind. *)
Lemma create_request_effects wf w request :
  ∃ w',
    let rs' := dict_set (requests wf) (id request) request in
    create_request request (wf, w) = (Ret tt, (set_requests (fun _ => rs') wf, w'))
    ∧ files w' = <[storage_file wf := Json (ledger_json rs')]> (files w)
    ∧ role_tables w' = role_tables w
    ∧ audit_trail w'
      = (audit_trail w ++
         [audit_entry (clock_tape w (clock_pos w)) INFRA_CHANGE_REQUESTED
            (requester_id request) (Some (id request))
            (if bool_decide (change_summary request = "") then JDict []
             else JStr (change_summary request))])%list.
Proof.
  unfold create_request. run_py. destruct wf as [eng file rs].
  unfold set_requests. cbn [requests rbac_engine storage_file].
  eexists. split; [reflexivity|]. split; [reflexivity|]. split; [reflexivity|].
  cbn [set_console set_audit_trail set_clock_pos set_files audit_trail clock_tape clock_pos
       truthy AuditEvent_value json_of_option_str]. unfold audit_entry.
  by destruct (bool_decide (change_summary request = "")).
Qed.

(** A call by name is a call of one of the three public methods on
    arguments taken from the list, or it ends at once without effect. *)
Lemma call_method_cases method_name args s :
  (∃ request, ArgRequest request ∈ args
              ∧ call_method method_name args s = create_request request s)
  ∨ (∃ request_id approver comment,
       call_method method_name args s = approve_request request_id approver comment s)
  ∨ call_method method_name args s = list_pending_requests s
  ∨ (∃ e, call_method method_name args s = (Raise e, s))
  ∨ call_method method_name args s = (Unmodelled, s).
Proof.
  unfold call_method.
  destruct (negb _); [right; right; right; left; by eexists|].
  destruct (bool_decide (method_name = "create_request")).
  { destruct args as [|[| |request] [|]]; try (by do 4 right).
    left. exists request. split; [left|done]. }
  destruct (bool_decide (method_name = "approve_request")).
  { destruct args as [|[|request_id|] [|[|approver|] [|[|c|] [|]]]];
      try (by do 4 right); right; left; by eexists _, _, _. }
  destruct (bool_decide (method_name = "list_pending_requests")).
  { destruct args; [by do 2 right; left|by do 4 right]. }
  by do 4 right.
Qed.

Lemma approved_by_id approver now comment r : id (approved_by approver now comment r) = id r.
Proof.
  unfold approved_by. by destruct comment as [c|]; [destruct (bool_decide (c = ""))|].
Qed.

(** The ways in which a public operation can change workflow and world. *)
Lemma call_method_effect method_name args wf w out wf' w' :
  call_method method_name args (wf, w) = (out, (wf', w')) →
  rbac_engine wf' = rbac_engine wf
  ∧ storage_file wf' = storage_file wf
  ∧ role_tables w' = role_tables w
  ∧ (∀ path, path ≠ storage_file wf → files w' !! path = files w !! path)
  ∧ audit_trail w `prefix_of` audit_trail w'
  ∧ (requests wf' = requests wf
     ∨ (∃ request, ArgRequest request ∈ args
                   ∧ requests wf' = dict_set (requests wf) (id request) request)
     ∨ (∃ k r r', dict_get (requests wf) k = Some r
                  ∧ requests wf' = dict_set (requests wf) k r'
                  ∧ id r' = id r ∧ approver_recorded r')).
Proof.
  assert (∀ wf w, rbac_engine wf = rbac_engine wf ∧ storage_file wf = storage_file wf
          ∧ role_tables w = role_tables w
          ∧ (∀ path, path ≠ storage_file wf → files w !! path = files w !! path)
          ∧ audit_trail w `prefix_of` audit_trail w) as Hsame by (by repeat split).
  destruct (call_method_cases method_name args (wf, w))
    as [(request & Hin & ->)|[(request_id & approver & comment & ->)|[->|[[e ->]| ->]]]].
  - destruct (create_request_effects wf w request) as (w0 & -> & Hfiles & Htables & Haudit).
    intros [= _ <- <-]. cbn [set_requests rbac_engine storage_file requests].
    rewrite Hfiles, Haudit. repeat split; [done|..].
    + intros path Hpath. by apply lookup_insert_ne.
    + by apply prefix_app_r.
    + right. left. by exists request.
  - destruct (dict_get (requests wf) request_id) as [r|] eqn:Hget.
    + destruct (has_permission (rbac_engine wf) w approver Permission.APPROVE_CHANGES)
        eqn:Hperm.
      * destruct (approve_request_effects wf w request_id r approver comment Hget Hperm)
          as (w0 & -> & Hfiles & Htables & Haudit & _).
        intros [= _ <- <-]. cbn [set_requests rbac_engine storage_file requests].
        rewrite Hfiles, Haudit. repeat split; [done|..].
        -- intros path Hpath. by apply lookup_insert_ne.
        -- by apply prefix_app_r.
        -- right. right. eexists request_id, r, _. split; [done|]. split; [done|].
           split; [apply approved_by_id|apply approved_by_recorded].
      * rewrite approve_request_denied by eauto.
        intros [= _ <- <-]. destruct (Hsame wf w) as (? & ? & ? & ? & ?).
        repeat split; auto.
    + rewrite approve_request_not_found by done.
      intros [= _ <- <-]. destruct (Hsame wf w) as (? & ? & ? & ? & ?).
      repeat split; auto.
  - destruct (list_pending_requests_runs wf w) as [item ->].
    intros [= _ <- <-]. destruct (Hsame wf w) as (? & ? & ? & ? & ?).
    repeat split; auto.
  - intros [= _ <- <-]. destruct (Hsame wf w) as (? & ? & ? & ? & ?).
    repeat split; auto.
  - intros [= _ <- <-]. destruct (Hsame wf w) as (? & ? & ? & ? & ?).
    repeat split; auto.
Qed.

(** X25. Every public operation of the workflow, called by name with any
    arguments, keeps the ledger well keyed: if every record was stored
    once and under its own id before the call, so it is after, however the
    call ends. *)
Theorem public_operations_keep_well_keyed
    (method_name : string) (args : list py_arg) (wf : ApprovalWorkflow) (w : World) :
  well_keyed (requests wf) →
  well_keyed (requests (fst (snd (call_method method_name args (wf, w))))).
Proof.
  intros Hwk.
  destruct (call_method method_name args (wf, w)) as [out [wf' w']] eqn:Hrun.
  cbn [fst snd].
  apply call_method_effect in Hrun
    as (_ & _ & _ & _ & _ & [->|[(request & _ & ->)|(k & r & r' & Hget & -> & Hid & _)]]);
    [done|by apply well_keyed_set|].
  apply well_keyed_set; [done|]. rewrite Hid.
  destruct Hwk as [_ Hids]. apply Hids. by apply dict_get_Some_elem.
Qed.


(** An approval on the ledger of [pending_state]. *)
Lemma public_operations_keep_well_keyed_witness :
  well_keyed (requests (fst (snd (call_method "approve_request"
                                    [ArgStr (id example_request); ArgStr "alice"]
                                    (fst pending_state, snd pending_state))))).
Proof.
  apply (public_operations_keep_well_keyed "approve_request"
           [ArgStr (id example_request); ArgStr "alice"]
           (fst pending_state) (snd pending_state)).
  exact pending_state_well_keyed.
Defined.

(** X26. No public operation of the workflow, called by name with any
    arguments, reaches beyond the ledger: the workflow keeps its engine and
    its storage file, the role tables are not touched, no file other than
    the storage file is written, and the audit trail only grows at its end:
    the entries it had stay, in place. *)
Theorem public_operations_frame
    (method_name : string) (args : list py_arg) (wf : ApprovalWorkflow) (w : World) :
  let wf' := fst (snd (call_method method_name args (wf, w))) in
  let w' := snd (snd (call_method method_name args (wf, w))) in
  rbac_engine wf' = rbac_engine wf
  ∧ storage_file wf' = storage_file wf
  ∧ role_tables w' = role_tables w
  ∧ (∀ path, path ≠ storage_file wf → files w' !! path = files w !! path)
  ∧ audit_trail w `prefix_of` audit_trail w'.
Proof.
  destruct (call_method method_name args (wf, w)) as [out [wf' w']] eqn:Hrun.
  cbn [fst snd].
  apply call_method_effect in Hrun as (? & ? & ? & ? & ? & _). by repeat split.
Qed.

(** X27. Every public operation of the workflow keeps the record of
    approvers sound: if in the ledger, and in every request passed as
    argument, the approver is set exactly on approved and rejected
    requests, then so it is in the ledger after the call. *)
Theorem public_operations_keep_approvers
    (method_name : string) (args : list py_arg) (wf : ApprovalWorkflow) (w : World) :
  ledger_records_approvers wf →
  (∀ r, ArgRequest r ∈ args → approver_recorded r) →
  ledger_records_approvers (fst (snd (call_method method_name args (wf, w)))).
Proof.
  intros Hinv Hargs.
  destruct (call_method method_name args (wf, w)) as [out [wf' w']] eqn:Hrun.
  cbn [fst snd].
  apply call_method_effect in Hrun
    as (_ & _ & _ & _ & _ & [Hrs|[(request & Hin & Hrs)|(k & r & r' & _ & Hrs & _ & Hr')]]);
    unfold ledger_records_approvers; rewrite Hrs; [done|..].
  - intros k0 r0. destruct (decide (id request = k0)) as [<-|Hne].
    + rewrite dict_get_set_eq. intros [= <-]. by apply Hargs.
    + rewrite dict_get_set_ne by done. apply Hinv.
  - intros k0 r0. destruct (decide (k = k0)) as [<-|Hne].
    + rewrite dict_get_set_eq. by intros [= <-].
    + rewrite dict_get_set_ne by done. apply Hinv.
Qed.

(** [example_request] submitted again to the ledger of [approved_state]. *)
Lemma public_operations_keep_approvers_witness :
  ledger_records_approvers
    (fst (snd (call_method "create_request" [ArgRequest example_request]
                 (fst approved_state, snd approved_state)))).
Proof.
  apply (public_operations_keep_approvers "create_request" [ArgRequest example_request]
           (fst approved_state) (snd approved_state)).
  - intros k r Hget. apply dict_get_Some_elem in Hget. vm_compute in Hget.
    apply elem_of_cons in Hget as [Hget|Hget]; [|by apply elem_of_nil in Hget].
    injection Hget as -> ->. split.
    + intros _. left. reflexivity.
    + intros _. eexists. reflexivity.
  - intros r Hin. apply elem_of_cons in Hin as [Hin|Hin]; [|by apply elem_of_nil in Hin].
    injection Hin as ->. split.
    + intros [x Hx]. discriminate Hx.
    + intros [H|H]; discriminate H.
Defined.

(** ** The commands *)

(** X28. The [approve] command turns the two refusals of
    [approve_request] into a printed error. For an id that is not in the
    ledger, and for a user without the approve-changes permission, the
    command returns normally, prints the error and changes nothing else.
    For a known id and a user with the permission, the request is, after the
    call and however the call ends, approved in the ledger with the user as
    approver. *)
Theorem approve_command_shows_refusals
    (actor_id request_id : string) (comment : option string)
    (wf : ApprovalWorkflow) (w : World) :
  let out := WorkflowCommands.approve actor_id request_id comment (wf, w) in
  match dict_get (requests wf) request_id with
  | None =>
      out = (Ret tt,
             (wf, set_console
                    (fun c => (c ++ [Line "[red]Error: Approval request not found.[/red]"])%list)
                    w))
  | Some _ =>
      if has_permission (rbac_engine wf) w actor_id Permission.APPROVE_CHANGES then
        ∃ R', dict_get (requests (fst (snd out))) request_id = Some R'
              ∧ status R' = APPROVED ∧ approver_id R' = Some actor_id
      else
        out = (Ret tt,
               (wf, set_console
                      (fun c => (c ++ [Line "[red]Error: You do not have permission to approve changes.[/red]"])%list)
                      w))
  end.
Proof.
  unfold WorkflowCommands.approve, try_except.
  destruct (dict_get (requests wf) request_id) as [r|] eqn:Hget.
  - destruct (has_permission (rbac_engine wf) w actor_id Permission.APPROVE_CHANGES)
      eqn:Hperm.
    + destruct (approve_request_effects wf w request_id r actor_id comment Hget Hperm)
        as (w' & -> & _).
      cbn [fst snd]. eexists. split.
      * cbn [set_requests requests]. apply dict_get_set_eq.
      * unfold approved_by.
        by destruct comment as [c|]; [destruct (bool_decide (c = ""))|].
    + by rewrite approve_request_denied by eauto.
  - by rewrite approve_request_not_found by done.
Qed.

(** X29. The [request_approval] command creates a request only for a user
    with the create-infrastructure permission. For such a user the ledger
    holds, after the call and however the call ends, a new pending request
    under a fresh id, with the user as requester, the summary as given and
    the description as details. For any other user the command returns
    normally after printing a denial: it stores nothing, writes no file and
    leaves one "rbac.permission.denied" entry in the audit trail. *)
Theorem request_approval_gate
    (actor_id summary details : string) (wf : ApprovalWorkflow) (w : World) :
  let out := WorkflowCommands.request_approval actor_id summary details (wf, w) in
  if has_permission (rbac_engine wf) w actor_id Permission.CREATE_INFRA then
    let new_id := uuid_tape w (uuid_pos w) in
    let now := clock_tape w (clock_pos w) in
    dict_get (requests (fst (snd out))) new_id
    = Some (mkRequest new_id actor_id summary (JDict [("description", JStr details)])
                      "Approver" PENDING now now None [])
  else
    fst out = Ret tt
    ∧ fst (snd out) = wf
    ∧ files (snd (snd out)) = files w
    ∧ audit_trail (snd (snd out))
      = (audit_trail w ++
         [audit_entry (clock_tape w (clock_pos w)) PERMISSION_DENIED actor_id None
            (JDict [("permission", JStr Permission.CREATE_INFRA)])])%list.
Proof.
  destruct (has_permission (rbac_engine wf) w actor_id Permission.CREATE_INFRA) eqn:Hperm.
  - assert (∃ out0 wf' w',
              WorkflowCommands.request_approval actor_id summary details (wf, w)
              = (out0, (wf', w'))
              ∧ dict_get (requests wf') (uuid_tape w (uuid_pos w))
                = Some (mkRequest (uuid_tape w (uuid_pos w)) actor_id summary
                          (JDict [("description", JStr details)]) "Approver" PENDING
                          (clock_tape w (clock_pos w)) (clock_tape w (clock_pos w)) None []))
      as (out0 & wf' & w' & -> & Hget).
    { unfold WorkflowCommands.request_approval. unfold bind at 1 2.
      unfold get_self, get_world. cbn [fst snd]. rewrite Hperm.
      cbv beta iota delta [negb]. unfold bind at 1.
      unfold ApprovalRequest_init at 1. run_py.
      match goal with |- context [create_request ?r (?wf0, ?w0)] =>
        destruct (create_request_effects wf0 w0 r) as (w' & -> & _) end.
      eexists _, _, _. split; [reflexivity|].
      cbn [set_requests requests id]. rewrite dict_get_set_eq. reflexivity. }
    exact Hget.
  - assert (∃ w',
              WorkflowCommands.request_approval actor_id summary details (wf, w)
              = (Ret tt, (wf, w'))
              ∧ files w' = files w
              ∧ audit_trail w'
                = (audit_trail w ++
                   [audit_entry (clock_tape w (clock_pos w)) PERMISSION_DENIED actor_id None
                      (JDict [("permission", JStr Permission.CREATE_INFRA)])])%list)
      as (w' & -> & Hfiles & Haudit).
    { unfold WorkflowCommands.request_approval. unfold bind at 1 2.
      unfold get_self, get_world. cbn [fst snd]. rewrite Hperm.
      cbv beta iota delta [negb]. run_py.
      eexists. split; [reflexivity|]. split; reflexivity. }
    by repeat split.
Qed.

(** X30. The [assign_role] command changes the assignments only for a
    caller with the manage-roles permission and a role that is in the
    table; then the user gets the role. In every other case the assignments
    after the call are those from before. This is so however the call ends,
    and the role tables are never touched. *)
Theorem assign_role_command_gate
    (actor_id user_id role_name : string) (e : RBACEngine) (w : World) :
  let out := AuthCommands.assign_role actor_id user_id role_name (e, w) in
  role_tables (snd (snd out)) = role_tables w
  ∧ fst (snd out)
    = if has_permission e w actor_id Permission.MANAGE_ROLES
         && dict_contains (roles_of e w) role_name
      then set_user_roles
             (fun ur => dict_set ur user_id
                          (default ∅ (dict_get ur user_id) ∪ {[ role_name ]})) e
      else e.
Proof.
  assert (∃ out0 w',
            AuthCommands.assign_role actor_id user_id role_name (e, w)
            = (out0,
               (if has_permission e w actor_id Permission.MANAGE_ROLES
                   && dict_contains (roles_of e w) role_name
                then set_user_roles
                       (fun ur => dict_set ur user_id
                                    (default ∅ (dict_get ur user_id) ∪ {[ role_name ]})) e
                else e, w'))
            ∧ role_tables w' = role_tables w) as (out0 & w' & -> & Htables).
  { unfold AuthCommands.assign_role. unfold bind at 1 2. unfold get_self, get_world.
    cbn [fst snd].
    destruct (has_permission e w actor_id Permission.MANAGE_ROLES).
    - cbv beta iota delta [negb andb]. unfold try_except. unfold bind at 1.
      destruct (dict_contains (roles_of e w) role_name) eqn:Hrole.
      + rewrite assign_role_to_user_runs by done. run_py.
        eexists _, _. split; reflexivity.
      + unfold assign_role_to_user. run_py. rewrite Hrole. cbv beta iota delta [negb].
        rewrite bool_decide_true by (cbn; set_solver).
        eexists _, _. split; reflexivity.
    - cbv beta iota delta [negb andb]. run_py. eexists _, _. split; reflexivity. }
  by split.
Qed.

(** ** No operation rejects *)








